(** * Verification of the xstore restore driver (tools/xstore/cli/restore.py)

    The development is a shallow embedding of [restore.py]: the string
    helpers of the Python runtime it relies on, the file system and the
    external collaborators it talks to, the functions of the module in an
    exception-and-state monad, and then the theorems about them.

    Conventions.
    - A Python [str] is a [string]; a character is its code point, which
      the model takes below 256.
    - [logger.*] calls are not modelled: they only format values that are
      always formattable and write to the operator's log. *)

From Stdlib Require Import ZArith Ascii String List Bool Lia Sorting.Sorted.
From Stdlib Require Import DecimalString DecimalPos DecimalFacts.
From stdpp Require Import base tactics option list gmap strings.

Open Scope string_scope.
Open Scope Z_scope.

#[local] Arguments String.append !_ _ / : simpl nomatch.

(** ** The Python string primitives used by [restore.py] *)
Module Py.

Definition TAB : ascii := "009"%char.
Definition LF : ascii := "010"%char.
Definition CR : ascii := "013"%char.

(** [str.isspace] on code points below 256. *)
Definition is_space (c : ascii) : bool :=
  let n := N_of_ascii c in
  ((9 <=? n) && (n <=? 13) || (28 <=? n) && (n <=? 32)
   || (n =? 133) || (n =? 160))%N.

Definition is_digit (c : ascii) : bool :=
  let n := N_of_ascii c in ((48 <=? n) && (n <=? 57))%N.

Definition digit_val (c : ascii) : Z := Z.of_N (N_of_ascii c) - 48.

Definition is_empty (s : string) : bool :=
  match s with EmptyString => true | String _ _ => false end.

Fixpoint forall_chars (p : ascii -> bool) (s : string) : bool :=
  match s with
  | EmptyString => true
  | String c s' => p c && forall_chars p s'
  end.

Fixpoint has_char (a : ascii) (s : string) : bool :=
  match s with
  | EmptyString => false
  | String c s' => Ascii.eqb c a || has_char a s'
  end.

(** [s.lstrip(chars)], [s.rstrip(chars)], [s.strip(chars)]: the set of
    characters to drop is given as a predicate. *)
Fixpoint lstrip_by (p : ascii -> bool) (s : string) : string :=
  match s with
  | EmptyString => EmptyString
  | String c s' => if p c then lstrip_by p s' else s
  end.

Fixpoint rstrip_by (p : ascii -> bool) (s : string) : string :=
  match s with
  | EmptyString => EmptyString
  | String c s' =>
      let r := rstrip_by p s' in
      if p c && is_empty r then EmptyString else String c r
  end.

Definition strip_by (p : ascii -> bool) (s : string) : string :=
  rstrip_by p (lstrip_by p s).

(** [s.strip()] *)
Definition strip (s : string) : string := strip_by is_space s.

(** [s.strip(chars)] for a string of characters *)
Definition strip_chars (chars s : string) : string :=
  strip_by (fun c => has_char c chars) s.

(** [s.split(sep)] for a separator of one character. The result is never
    empty: the empty string splits to one empty field. *)
Fixpoint split (sep : ascii) (s : string) : list string :=
  match s with
  | EmptyString => [EmptyString]
  | String c s' =>
      if Ascii.eqb c sep then EmptyString :: split sep s'
      else match split sep s' with
           | f :: fs => String c f :: fs
           | [] => [String c EmptyString]
           end
  end.

(** [s.split()]: the maximal runs of characters that are not white
    space. *)
Fixpoint split_ws (s : string) : list string :=
  match s with
  | EmptyString => []
  | String c s' =>
      if is_space c then split_ws s'
      else match s' with
           | EmptyString => [String c EmptyString]
           | String c' _ =>
               if is_space c' then String c EmptyString :: split_ws s'
               else match split_ws s' with
                    | t :: ts => String c t :: ts
                    | [] => [String c EmptyString]
                    end
           end
  end.

(** [s.replace(a, '')] for a one-character [a]. *)
Fixpoint remove_char (a : ascii) (s : string) : string :=
  match s with
  | EmptyString => EmptyString
  | String c s' =>
      if Ascii.eqb c a then remove_char a s' else String c (remove_char a s')
  end.

(** [sep.join(l)] *)
Definition join (sep : string) (l : list string) : string :=
  String.concat sep l.

(** [l[-1]] and [l[-3]], [None] standing for [IndexError]. *)
Definition last_item {A} (l : list A) : option A := rev l !! 0%nat.
Definition third_from_last {A} (l : list A) : option A := rev l !! 2%nat.

(** [int(s)] in base 10: white space around, an optional sign, digits
    with single underscores between them. [None] stands for
    [ValueError]. The interpreter's optional cap on the number of digits
    is not modelled. *)
Inductive digit_state := AtStart | AfterDigit | AfterUnderscore.

Fixpoint parse_digits (st : digit_state) (acc : Z) (s : string) : option Z :=
  match s with
  | EmptyString =>
      match st with AfterDigit => Some acc | _ => None end
  | String c s' =>
      if is_digit c then parse_digits AfterDigit (acc * 10 + digit_val c) s'
      else if Ascii.eqb c "_"%char then
        match st with
        | AfterDigit => parse_digits AfterUnderscore acc s'
        | _ => None
        end
      else None
  end.

Definition int (s : string) : option Z :=
  match strip s with
  | String "-" s' => Z.opp <$> parse_digits AtStart 0 s'
  | String "+" s' => parse_digits AtStart 0 s'
  | s' => parse_digits AtStart 0 s'
  end.

(** [str(n)] for an integer. *)
Definition str_of_Z (n : Z) : string :=
  NilZero.string_of_int (Z.to_int n).

(** ["%06d" % n]: zero padding to width 6, the sign counted in the width. *)
Fixpoint zeros (k : nat) : string :=
  match k with O => EmptyString | S k' => String "0" (zeros k') end.

Definition zfill (width : nat) (digits : string) : string :=
  zeros (width - String.length digits) ++ digits.

Definition fmt_06d (n : Z) : string :=
  if n <? 0 then String "-" (zfill 5 (str_of_Z (- n)))
  else zfill 6 (str_of_Z n).

(** [os.path.join] of [posixpath], two components. *)
Definition ends_with_slash (s : string) : bool :=
  match last_item (list_ascii_of_string s) with
  | Some c => Ascii.eqb c "/"%char
  | None => false
  end.

Definition is_abs (s : string) : bool :=
  match s with String "/" _ => true | _ => false end.

Definition path_join (a b : string) : string :=
  if is_abs b then b
  else if is_empty a || ends_with_slash a then a ++ b
  else a ++ "/" ++ b.

(** Text-mode reading translates ["\r\n"] and a lone ["\r"] to ["\n"]. *)
Fixpoint universal_newlines (s : string) : string :=
  match s with
  | EmptyString => EmptyString
  | String c s' =>
      if Ascii.eqb c CR then
        match s' with
        | String c' s'' =>
            if Ascii.eqb c' LF then universal_newlines s'
            else String LF (universal_newlines s')
        | EmptyString => String LF EmptyString
        end
      else String c (universal_newlines s')
  end.

(** [f.readlines()] on text already translated: the lines, each with its
    terminating newline (the last one may lack it). *)
Fixpoint keep_lines (s : string) : list string :=
  match s with
  | EmptyString => []
  | String c s' =>
      if Ascii.eqb c LF then String c EmptyString :: keep_lines s'
      else match keep_lines s' with
           | l :: ls => String c l :: ls
           | [] => [String c EmptyString]
           end
  end.

(** [str.splitlines()] boundaries on code points below 256. *)
Definition is_linebreak (c : ascii) : bool :=
  let n := N_of_ascii c in
  ((10 <=? n) && (n <=? 13) || (28 <=? n) && (n <=? 30) || (n =? 133))%N.

(** [s.splitlines()]; ["\r\n"] counts as one boundary. *)
Fixpoint splitlines (s : string) : list string :=
  match s with
  | EmptyString => []
  | String c s' =>
      if is_linebreak c then
        match s' with
        | String c' s'' =>
            if Ascii.eqb c CR && Ascii.eqb c' LF
            then EmptyString :: splitlines s''
            else EmptyString :: splitlines s'
        | EmptyString => [EmptyString]
        end
      else match s' with
           | EmptyString => [String c EmptyString]
           | String _ _ =>
               match splitlines s' with
               | l :: ls => String c l :: ls
               | [] => [String c EmptyString]
               end
           end
  end.

End Py.

(** ** Values, exceptions and the outside world *)

(** Modelled from the spec: the role constants [NODE_ROLE_CANDIDATE],
    [NODE_ROLE_LEARNER] and [NODE_ROLE_VOTER] of [core.convention], which is
    not part of the sources at hand. The spec has a node role be one of
    Candidate, Learner, Voter, any other value making the run a no-op. *)
Inductive NodeRole :=
| Candidate
| Learner
| Voter
| OtherRole (name : string).

Definition role_eqb (a b : NodeRole) : bool :=
  match a, b with
  | Candidate, Candidate | Learner, Learner | Voter, Voter => true
  | OtherRole x, OtherRole y => String.eqb x y
  | _, _ => false
  end.

(** A value read from the JSON descriptor, or [None] / a string produced by
    the driver itself. Values that are neither null, integer nor string
    carry what [str()] shows for them. *)
Inductive pyval :=
| PNone
| PInt (n : Z)
| PStr (s : string)
| POther (shown : string).

Definition py_str (v : pyval) : string :=
  match v with
  | PNone => "None"
  | PInt n => Py.str_of_Z n
  | PStr s => s
  | POther shown => shown
  end.

Definition of_opt_str (o : option string) : pyval :=
  match o with Some s => PStr s | None => PNone end.

Inductive command :=
| Shell (line : string)
| Argv (args : list string).

Inductive exn :=
| KeyError (key : string)
| IndexError
| ValueError (what : string)
| TypeError
| AttributeError
| FileNotFoundError (path : string)
| FileExistsError (path : string)
| IsADirectoryError (path : string)
| SameFileError (path : string)
| JSONDecodeError
| TransferError (remote : string)
| ProcessError (c : command) (code : Z)
| Exception (msg : string)
| TimeoutError (msg : string).

(** The file system: a finite map from path to node. Paths are compared as
    strings, and the parent directory of a created node is taken to exist. *)
Inductive node :=
| Dir (owner : string)
| File (owner : string) (content : string).

Abbreviation filesystem := (gmap string node).

(** What a child process that runs to completion did. *)
Record proc_result := {
  exit_code : Z;
  stdout : string;
  fs_after : filesystem;
}.

(** A reply of the engine to the status query, as [execute_mysqlcmd] sees
    it: an exception inside its [try] block, or the fetched rows with each
    item already rendered ([conn.literal] then [strip("'")]). *)
Inductive db_reply :=
| DbError (msg : string)
| DbRows (rows : list (list string)).

(** The node context of [core.context] (external, read-only). [volume_data]
    is [context.volume_path(VOLUME_DATA, sub)]. *)
Record Context := {
  node_role : NodeRole;
  engine_home : string;
  xtrabackup_home : string;
  xtrabackup : string;
  mysqlbinlogtailor : string;
  mysql_conf : string;
  mycnf_path : string;
  mycnf_override_path : string;
  mycnf_template_path : string;
  volume_data : string -> string;
  is_galaxy80 : bool;
  is_xcluster57 : bool;
  port_access : string;
  xcluster_info_argument_local : string;
  xcluster_info_argument_env : string;
  reset_config : bool;
}.

(** Everything outside the driver that answers it. *)
Record World := {
  context : Context;
  (** [json.load]: the descriptor text to its top-level object *)
  json_load : string -> option (gmap string pyval);
  (** [BackupStorage[str.upper(name)]] *)
  known_storage : string -> bool;
  (** the remote object store; [None] makes the transfer client raise *)
  remote_object : string -> option string;
  (** run a child process to completion on the current file system *)
  run_process : command -> filesystem -> proc_result;
  (** whether the program of a command can be started at all *)
  executable : command -> bool;
  (** the text [ConfigParser.write] gives for the sorted override layer *)
  override_layer : string;
  (** [MycnfRenderer.render] on the override file text *)
  render_mycnf : string -> option string;
  (** the reply to the k-th status query *)
  status_view : nat -> db_reply;
  (** the k-th reading of [time.time()], in seconds *)
  clock : nat -> Z;
}.

Inductive event :=
| EvMkdir (path : string)
| EvChown (path owner : string)
| EvDownload (remote local : string)
| EvOpenW (path : string)
| EvWrite (path data : string)
| EvCopy (src dst : string)
| EvLock (path : string)
| EvUnlock (path : string)
| EvRun (c : command) (code : Z)
| EvSpawn (c : command)
| EvKill (c : command)
| EvWait (c : command)
| EvSleep (seconds : Z)
| EvQuery (port sql : string)
| EvMarkInitialized.

(** The state the driver acts on. [live] holds the children started with
    [Popen] that the driver has not waited for yet; [history] is in
    chronological order. *)
Record State := {
  fs : filesystem;
  history : list event;
  live : list command;
  ticks : nat;
  queries : nat;
}.

Definition initial_state (files : filesystem) : State :=
  {| fs := files; history := []; live := []; ticks := 0; queries := 0 |}.

(** ** The monad: state, exceptions and fuel for the polling loop *)

Inductive outcome (A : Type) :=
| Ok (a : A)
| Raise (e : exn)
| OutOfFuel.
Arguments Ok {A} a.
Arguments Raise {A} e.
Arguments OutOfFuel {A}.

Definition M (A : Type) : Type := State -> outcome A * State.

#[global] Instance M_ret : MRet M := fun A a st => (Ok a, st).
#[global] Instance M_bind : MBind M := fun A B f m st =>
  match m st with
  | (Ok a, st') => f a st'
  | (Raise e, st') => (Raise e, st')
  | (OutOfFuel, st') => (OutOfFuel, st')
  end.

Definition raise {A} (e : exn) : M A := fun st => (Raise e, st).
Definition out_of_fuel {A} : M A := fun st => (OutOfFuel, st).
Definition get_state : M State := fun st => (Ok st, st).
Definition modify (f : State -> State) : M unit := fun st => (Ok tt, f st).

(** [try: m  except Exception as e: h e] *)
Definition try_except {A} (m : M A) (h : exn -> M A) : M A := fun st =>
  match m st with
  | (Raise e, st') => h e st'
  | r => r
  end.

Definition of_option {A} (o : option A) (e : exn) : M A :=
  match o with Some a => mret a | None => raise e end.

Fixpoint for_each {A} (l : list A) (body : A -> M unit) : M unit :=
  match l with
  | [] => mret tt
  | x :: l' => body x ≫= fun _ => for_each l' body
  end.

Definition set_fs (f : filesystem -> filesystem) (st : State) : State :=
  {| fs := f (fs st); history := history st; live := live st;
     ticks := ticks st; queries := queries st |}.
Definition log_event (e : event) (st : State) : State :=
  {| fs := fs st; history := history st ++ [e]; live := live st;
     ticks := ticks st; queries := queries st |}.
Definition set_live (f : list command -> list command) (st : State) : State :=
  {| fs := fs st; history := history st; live := f (live st);
     ticks := ticks st; queries := queries st |}.
Definition tick (st : State) : State :=
  {| fs := fs st; history := history st; live := live st;
     ticks := S (ticks st); queries := queries st |}.
Definition count_query (st : State) : State :=
  {| fs := fs st; history := history st; live := live st;
     ticks := ticks st; queries := S (queries st) |}.

Definition emit (e : event) : M unit := modify (log_event e).

#[global] Instance command_eq_dec : EqDecision command.
Proof. solve_decision. Defined.

(** The text [execute_mysqlcmd] makes of the fetched rows: the items of a
    row joined by tabs, the rows joined by newlines. *)
Definition render_rows (rows : list (list string)) : string :=
  Py.join (String Py.LF "") (map (Py.join (String Py.TAB "")) rows).

(** The pair [(status, output)] that [execute_mysqlcmd] returns. *)
Definition reply_result (r : db_reply) : Z * string :=
  match r with
  | DbError msg => (1, msg)
  | DbRows rows => (0, render_rows rows)
  end.

(** ** The operating-system calls of the driver *)
Section Driver.

Variable w : World.
Let ctx := context w.

Definition path_exists (p : string) : M bool :=
  st ← get_state;
  mret (match fs st !! p with Some _ => true | None => false end).

Definition os_mkdir (p : string) : M unit :=
  e ← path_exists p;
  if e : bool then raise (FileExistsError p)
  else modify (set_fs (insert p (Dir "root")));; emit (EvMkdir p).

Definition set_owner (o : string) (n : node) : node :=
  match n with Dir _ => Dir o | File _ c => File o c end.

(** [shutil.chown(p, user, group)], the group following the user *)
Definition shutil_chown (p o : string) : M unit :=
  e ← path_exists p;
  if e : bool then modify (set_fs (alter (set_owner o) p));; emit (EvChown p o)
  else raise (FileNotFoundError p).

(** [open(p, 'w')] and [open(p, 'w+')]: create or cut to length zero *)
Definition open_w (p : string) : M unit :=
  st ← get_state;
  match fs st !! p with
  | Some (Dir _) => raise (IsADirectoryError p)
  | Some (File o _) =>
      modify (set_fs (insert p (File o "")));; emit (EvOpenW p)
  | None =>
      modify (set_fs (insert p (File "root" "")));; emit (EvOpenW p)
  end.

Definition append_data (data : string) (n : node) : node :=
  match n with Dir o => Dir o | File o c => File o (c ++ data) end.

(** [f.write(data)] on the file opened at [p]; the text layer's
    buffering is not modelled *)
Definition file_write (p data : string) : M unit :=
  modify (set_fs (alter (append_data data) p));; emit (EvWrite p data).

(** [f.read()] of [open(p, 'r')] *)
Definition read_text (p : string) : M string :=
  st ← get_state;
  match fs st !! p with
  | Some (File _ c) => mret (Py.universal_newlines c)
  | Some (Dir _) => raise (IsADirectoryError p)
  | None => raise (FileNotFoundError p)
  end.

Definition basename (p : string) : string :=
  default "" (Py.last_item (Py.split "/" p)).

(** [shutil.copy(src, dst)] *)
Definition shutil_copy (src dst : string) : M unit :=
  st ← get_state;
  let dst' := match fs st !! dst with
              | Some (Dir _) => Py.path_join dst (basename src)
              | _ => dst
              end in
  if String.eqb src dst' then raise (SameFileError src)
  else match fs st !! src with
       | None => raise (FileNotFoundError src)
       | Some (Dir _) => raise (IsADirectoryError src)
       | Some (File _ data) =>
           match fs st !! dst' with
           | Some (Dir _) => raise (IsADirectoryError dst')
           | Some (File o _) =>
               modify (set_fs (insert dst' (File o data)));;
               emit (EvCopy src dst')
           | None =>
               modify (set_fs (insert dst' (File "root" data)));;
               emit (EvCopy src dst')
           end
       end.

(** [FileStreamClient.download_to_file] (external) *)
Definition download_to_file (remote local : string) : M unit :=
  match remote_object w remote with
  | None => raise (TransferError remote)
  | Some data =>
      modify (set_fs (insert local (File "root" data)));;
      emit (EvDownload remote local)
  end.

(** A child process awaited by the driver, as in
    [with subprocess.Popen(...)]: the exit status is in the result and
    nothing looks at it here. *)
Definition popen_run (c : command) : M proc_result :=
  if executable w c then
    st ← get_state;
    let r := run_process w c (fs st) in
    modify (set_fs (fun _ => fs_after r));;
    emit (EvRun c (exit_code r));;
    mret r
  else raise (FileNotFoundError "executable").

(** Modelled from the spec: [check_run_process] of
    [core.backup_restore.utils], which is not part of the sources at
    hand. The spec has such an invocation run to completion, a non-zero
    exit being fatal. *)
Definition check_run_process (c : command) : M unit :=
  r ← popen_run c;
  if exit_code r =? 0 then mret tt else raise (ProcessError c (exit_code r)).

(** [p = subprocess.Popen(...)], [p.kill()], [p.wait()] *)
Definition popen_spawn (c : command) : M command :=
  if executable w c then
    modify (set_live (fun l => (l ++ [c])%list));; emit (EvSpawn c);; mret c
  else raise (FileNotFoundError "executable").

Fixpoint remove_first (c : command) (l : list command) : list command :=
  match l with
  | [] => []
  | x :: l' => if decide (x = c) then l' else x :: remove_first c l'
  end.

Definition proc_kill (p : command) : M unit := emit (EvKill p).
Definition proc_wait (p : command) : M unit :=
  modify (set_live (remove_first p));; emit (EvWait p).

Definition time_time : M Z :=
  st ← get_state;
  modify tick;; mret (clock w (ticks st)).

Definition time_sleep (seconds : Z) : M unit := emit (EvSleep seconds).

(** ** The functions of [restore.py] *)

Definition RESTORE_TEMP_DIR : string := "/data/mysql/restore".
Definition INTERNAL_MARK : string := "/* rds internal mark */ ".

Definition mkdir_needed : M unit :=
  let ensure p := (e ← path_exists p; if e : bool then mret tt else os_mkdir p) in
  ensure RESTORE_TEMP_DIR;;
  ensure (volume_data ctx "data");;
  ensure (volume_data ctx "log");;
  ensure (volume_data ctx "tmp");;
  ensure (volume_data ctx "run");;
  shutil_chown (volume_data ctx "data") "mysql";;
  shutil_chown (volume_data ctx "log") "mysql";;
  shutil_chown (volume_data ctx "tmp") "mysql";;
  shutil_chown (volume_data ctx "run") "mysql".

Definition download_backup_file (backup_file_path backup_file_name : string)
  : M unit :=
  let backup_stream_file := Py.path_join RESTORE_TEMP_DIR backup_file_name in
  download_to_file backup_file_path backup_stream_file.

Definition download_binlogbackup_file (binlog_dir_path : string)
  : M (list string) :=
  let binlog_list_path := Py.path_join RESTORE_TEMP_DIR "binlog_list" in
  download_to_file (Py.path_join binlog_dir_path "binlog_list")
                   binlog_list_path;;
  text ← read_text binlog_list_path;
  let mysql_binlog_list := Py.splitlines text in
  for_each mysql_binlog_list (fun binlog =>
    download_to_file (Py.path_join binlog_dir_path binlog)
                     (Py.path_join RESTORE_TEMP_DIR binlog));;
  mret mysql_binlog_list.

Definition index_file_path : string :=
  Py.path_join (volume_data ctx "log") "mysql_bin.index".

Definition copy_one_binlog (binlog : string) : M unit :=
  let log_dir := volume_data ctx "log" in
  let binlog_file_path := Py.path_join RESTORE_TEMP_DIR binlog in
  let new_binlog_path := Py.path_join log_dir binlog in
  shutil_copy binlog_file_path new_binlog_path;;
  shutil_chown new_binlog_path "mysql";;
  file_write index_file_path new_binlog_path;;
  file_write index_file_path (String Py.LF "").

Definition copy_binlog_to_new_path (mysql_bin_list : list string) : M unit :=
  let index_file := index_file_path in
  open_w index_file;;
  for_each mysql_bin_list copy_one_binlog;;
  shutil_chown index_file "mysql".

Definition decompress_cmd (backup_file_name : string) : command :=
  Shell (xtrabackup_home ctx ++ "/xbstream -x < "
         ++ Py.path_join RESTORE_TEMP_DIR backup_file_name
         ++ " -C " ++ volume_data ctx "data").

Definition decompress_backup_file (backup_file_name : string) : M unit :=
  _ ← popen_run (decompress_cmd backup_file_name); mret tt.

Definition initialize_local_mycnf : M unit :=
  let force := reset_config ctx in
  e ← path_exists (mysql_conf ctx);
  (if e : bool then mret tt else os_mkdir (mysql_conf ctx));;
  open_w (mycnf_path ctx);;
  emit (EvLock (mycnf_path ctx));;
  e' ← path_exists (mycnf_override_path ctx);
  (if force || negb e' then
     open_w (mycnf_override_path ctx);;
     file_write (mycnf_override_path ctx) (override_layer w)
   else mret tt);;
  st ← get_state;
  let override_text := match fs st !! mycnf_override_path ctx with
                       | Some (File _ c) => c
                       | _ => ""
                       end in
  rendered ← of_option (render_mycnf w override_text)
                       (Exception "render");
  file_write (mycnf_path ctx) rendered;;
  emit (EvUnlock (mycnf_path ctx)).

Definition apply_backup_cmd : command :=
  if is_galaxy80 ctx then
    Shell (xtrabackup ctx ++ " --defaults-file=" ++ mycnf_path ctx
           ++ " --prepare --target-dir=" ++ volume_data ctx "data"
           ++ " 2> " ++ volume_data ctx "log" ++ "/applybackup.log")
  else if is_xcluster57 ctx then
    Shell (xtrabackup ctx ++ " --defaults-file=" ++ mycnf_path ctx
           ++ " --apply-log  " ++ volume_data ctx "data"
           ++ " 2> " ++ volume_data ctx "log" ++ "/applybackup.log")
  else Shell "".

Definition apply_backup_file : M unit :=
  _ ← popen_run apply_backup_cmd; mret tt.

Definition chown_data_dir : M unit :=
  check_run_process
    (Argv ["chown"; "-R"; "mysql:mysql"; volume_data ctx "data"]).

Definition mysqld_path : string :=
  Py.path_join (Py.path_join (engine_home ctx) "bin") "mysqld".

Definition init_metadata_cmd (cluster_start_index : pyval)
                             (end_term : string) : command :=
  Argv [mysqld_path;
        "--defaults-file=" ++ mycnf_path ctx;
        "--cluster-current-term=" ++ end_term;
        "--cluster-info=" ++ xcluster_info_argument_local ctx;
        "--cluster-force-change-meta=ON";
        "--cluster-force-single-mode=ON";
        "--loose-cluster-force-recover-index=" ++ py_str cluster_start_index;
        "--cluster-start-index=" ++ py_str cluster_start_index].

Definition init_mysqld_metadata (cluster_start_index commit_index : pyval)
                                (end_term : string) (pod_role : NodeRole)
  : M unit :=
  cluster_start_index ←
    (if role_eqb pod_role Voter then
       match commit_index with
       | PNone => raise (Exception "can NOT get logger commit index")
       | v => mret v
       end
     else mret cluster_start_index);
  check_run_process (init_metadata_cmd cluster_start_index end_term).

Definition sync_metadata_cmd : command :=
  Argv [mysqld_path;
        "--defaults-file=" ++ mycnf_path ctx;
        "--cluster-info=" ++ xcluster_info_argument_env ctx;
        "--cluster-force-change-meta=ON"].

Definition sync_cluster_metadata : M unit :=
  check_run_process sync_metadata_cmd.

Definition marker_path : string :=
  Py.path_join (volume_data ctx "data") "xtrabackup_binlog_info".

Definition get_xtrabackup_binlog_info_from_instance_local
  : M (option string) :=
  e ← path_exists marker_path;
  if e : bool then
    text ← read_text marker_path;
    let binlog_info := Py.strip text in
    if Py.is_empty binlog_info then mret None
    else match Py.split_ws binlog_info with
         | _ :: second :: _ => mret (Some second)
         | [first] => mret (Some first)
         | [] => raise IndexError
         end
  else mret None.

Definition lift {A} (o : outcome A) : M A := fun st => (o, st).

(** [execute_mysqlcmd(port, cmd, db=...)] for one statement: every
    exception of its [try] block comes back as status 1 with the
    message as output. *)
Definition execute_mysqlcmd (port cmd : string) : M (Z * string) :=
  st ← get_state;
  modify count_query;;
  emit (EvQuery port (INTERNAL_MARK ++ cmd));;
  mret (reply_result (status_view w (queries st))).

(** The loop over the rows of [check_binlog_apply_index_status]. *)
Fixpoint rows_ready (rows : list string) (end_log_index : string)
  : outcome bool :=
  match rows with
  | [] => Ok true
  | row :: rows' =>
      let columns := Py.split Py.TAB row in
      match Py.third_from_last columns with
      | None => Raise IndexError
      | Some col =>
          match Py.int col with
          | None => Raise (ValueError col)
          | Some applied =>
              match Py.int end_log_index with
              | None => Raise (ValueError end_log_index)
              | Some target =>
                  if applied <? target then Ok false
                  else rows_ready rows' end_log_index
              end
          end
      end
  end.

(** The part of [check_binlog_apply_index_status] after the query. *)
Definition status_ready (output end_log_index : string) : outcome bool :=
  if Py.is_empty output
  then Raise (Exception "can not get xdb full health info")
  else rows_ready (Py.split Py.LF output) end_log_index.

Definition status_sql : string :=
  "select * from information_schema.alisql_cluster_local".

Definition check_binlog_apply_index_status (mysql_port end_log_index : string)
  : M bool :=
  let sql_list := status_sql in
  '(stat, output) ← execute_mysqlcmd mysql_port sql_list;
  lift (status_ready output end_log_index).

Fixpoint wait_loop (fuel : nat) (deadline : Z)
                   (mysql_port end_log_index : string) : M unit :=
  match fuel with
  | O => out_of_fuel
  | S fuel' =>
      now ← time_time;
      if now <? deadline then
        ready ← try_except
                  (time_sleep 10;;
                   check_binlog_apply_index_status mysql_port end_log_index)
                  (fun _ => mret false);
        if ready : bool then mret tt
        else wait_loop fuel' deadline mysql_port end_log_index
      else raise (TimeoutError "binlog apply timeout!")
  end.

Definition wait_binlog_apply_ready (fuel : nat)
                                   (mysql_port end_log_index : string)
  : M unit :=
  let timeout := 48 * 60 * 60 in
  start_time ← time_time;
  let deadline := start_time + timeout in
  wait_loop fuel deadline mysql_port end_log_index.

Fixpoint scan_index (lines : list string) (last_file_index first_file_index : Z)
  : outcome (Z * Z) :=
  match lines with
  | [] => Ok (last_file_index, first_file_index)
  | text_line :: lines' =>
      match Py.last_item (Py.split "." text_line) with
      | None => Raise IndexError
      | Some suffix =>
          match Py.int suffix with
          | None => Raise (ValueError suffix)
          | Some n =>
              scan_index lines' (Z.max n last_file_index)
                         (Z.min n first_file_index)
          end
      end
  end.

Definition show_last_and_first_binlog : M (string * string) :=
  let log_dir := volume_data ctx "log" in
  text ← read_text index_file_path;
  '(last_file_index, first_file_index) ←
    lift (scan_index (Py.keep_lines text) (-1) 1000000000);
  let last_binlog := "mysql_bin." ++ Py.fmt_06d last_file_index in
  let first_binlog := "mysql_bin." ++ Py.fmt_06d first_file_index in
  mret (Py.path_join log_dir last_binlog, Py.path_join log_dir first_binlog).

(** The parsing of the tool's output in [xdb_show_binlog_index]. *)
Definition parse_index_info (index_info : string) : outcome (string * string) :=
  let temp := Py.remove_char " " (Py.strip_chars "[[]]" (Py.strip index_info)) in
  match Py.split "," temp !! 1%nat with
  | None => Raise IndexError
  | Some second =>
      match Py.split ":" second !! 0%nat, Py.split ":" second !! 1%nat with
      | Some end_index, Some end_term => Ok (end_index, end_term)
      | _, _ => Raise IndexError
      end
  end.

Definition xdb_show_binlog_index (binlog_path : string)
  : M (string * string) :=
  let cmd := Argv [mysqlbinlogtailor ctx; "--show-index-info"; binlog_path] in
  r ← popen_run cmd;
  lift (parse_index_info (stdout r)).

Definition getitem (params : gmap string pyval) (key : string) : M pyval :=
  of_option (params !! key) (KeyError key).

Definition as_str (v : pyval) (e : exn) : M string :=
  match v with PStr s => mret s | _ => raise e end.

Definition engine_cmd : command :=
  Argv [mysqld_path; "--defaults-file=" ++ mycnf_path ctx; "--user=mysql"].

Definition start (fuel : nat) (restore_context : string) : M unit :=
  text ← read_text restore_context;
  params ← of_option (json_load w text) JSONDecodeError;
  commit_index ← getitem params "backupCommitIndex";
  backup_file_path ← getitem params "backupFilePath";
  binlog_dir_path ← getitem params "binlogDirPath";
  storage_name ← getitem params "storageName";
  sink ← getitem params "sink";
  let node_role := node_role ctx in
  if negb (role_eqb node_role Candidate) && negb (role_eqb node_role Learner)
  then mret tt
  else
    storage_name ← as_str storage_name TypeError;
    (if known_storage w storage_name then mret tt
     else raise (KeyError storage_name));;
    mkdir_needed;;
    backup_file_path ← as_str backup_file_path AttributeError;
    backup_file_name ←
      of_option (Py.last_item (Py.split "/" backup_file_path)) IndexError;
    download_backup_file backup_file_path backup_file_name;;
    decompress_backup_file backup_file_name;;
    initialize_local_mycnf;;
    apply_backup_file;;
    binlog_dir_path ← as_str binlog_dir_path TypeError;
    mysql_bin_list ← download_binlogbackup_file binlog_dir_path;
    copy_binlog_to_new_path mysql_bin_list;;
    cluster_start_index ← get_xtrabackup_binlog_info_from_instance_local;
    chown_data_dir;;
    '(last_binlog, first_binlog) ← show_last_and_first_binlog;
    '(end_index, end_term) ← xdb_show_binlog_index last_binlog;
    init_mysqld_metadata (of_opt_str cluster_start_index) commit_index
                         end_term node_role;;
    p ← popen_spawn engine_cmd;
    wait_binlog_apply_ready fuel (port_access ctx) end_index;;
    proc_kill p;;
    proc_wait p;;
    sync_cluster_metadata;;
    emit EvMarkInitialized.

End Driver.

(** ** [sort_config] *)

(** [initialize_local_mycnf] above takes the text that
    [ConfigParser.write] gives for the sorted override layer from the
    world; the sorting itself is the function below, on the sections of a
    parser. *)
Module Config.

(** An [OrderedDict] with string keys: its items in order. *)
Definition odict (V : Type) : Type := list (string * V).

(** [config._sections]: section name to the section's options; an option
    without a value ([allow_no_value]) holds [None]. *)
Definition sections : Type := odict (odict (option string)).

(** [sorted(items, key=lambda t: t[0])]: a stable sort on the keys,
    strings being compared code point by code point. *)
Fixpoint insert_by_key {V} (x : string * V) (l : odict V) : odict V :=
  match l with
  | [] => [x]
  | y :: l' =>
      if String.leb (fst x) (fst y) then x :: l else y :: insert_by_key x l'
  end.

Definition sorted_by_key {V} (l : odict V) : odict V :=
  foldr insert_by_key [] l.

Definition sort_config (config : sections) : sections :=
  sorted_by_key (map (fun s => (fst s, sorted_by_key (snd s))) config).

(** [d.get(k)] *)
Definition dict_get {V} (d : odict V) (k : string) : option V :=
  snd <$> List.find (fun item => String.eqb (fst item) k) d.

(** The order of the keys. *)
Definition key_le {V} (a b : string * V) : Prop := String.le (fst a) (fst b).

End Config.

(** ** A concrete node, for running the model *)
Module Demo.

Definition ctx (role : NodeRole) : Context := {|
  node_role := role;
  engine_home := "/opt/galaxy_engine";
  xtrabackup_home := "/tools/xstore/current/xtrabackup/8.0-2/xcluster_xtrabackup80/bin";
  xtrabackup := "/tools/xstore/current/xtrabackup/8.0-2/xcluster_xtrabackup80/bin/xtrabackup";
  mysqlbinlogtailor := "/tools/xstore/current/bin/mysqlbinlogtailor";
  mysql_conf := "/data/mysql/conf";
  mycnf_path := "/data/mysql/conf/my.cnf";
  mycnf_override_path := "/data/mysql/conf/my.cnf.override";
  mycnf_template_path := "/data/template/my.cnf";
  volume_data := fun sub => Py.path_join "/data/mysql" sub;
  is_galaxy80 := true;
  is_xcluster57 := false;
  port_access := "3306";
  xcluster_info_argument_local := "127.0.0.1:11306@1";
  xcluster_info_argument_env := "pod-0:11306@1";
  reset_config := false;
|}.

Definition descriptor (commit_index : pyval) : gmap string pyval :=
  <["backupCommitIndex" := commit_index]>
  (<["backupFilePath" := PStr "backups/full/backup.xbstream"]>
  (<["binlogDirPath" := PStr "backups/binlog"]>
  (<["storageName" := PStr "oss"]>
  (<["sink" := PStr "default"]> ∅)))).

Definition remote (name : string) : option string :=
  if String.eqb name "backups/full/backup.xbstream" then Some "xbstream-data"
  else if String.eqb name "backups/binlog/binlog_list"
  then Some "mysql_bin.000001
mysql_bin.000003
mysql_bin.000002
"
  else if String.eqb name "backups/binlog/mysql_bin.000001" then Some "log-1"
  else if String.eqb name "backups/binlog/mysql_bin.000002" then Some "log-2"
  else if String.eqb name "backups/binlog/mysql_bin.000003" then Some "log-3"
  else None.

Definition is_tailor (c : command) : bool :=
  match c with
  | Argv (prog :: _) => String.eqb prog "/tools/xstore/current/bin/mysqlbinlogtailor"
  | _ => false
  end.

(** Children leave the file system as it is; [codes] gives the exit
    status of each command, and the index tool prints a fixed range. *)
Definition run (codes : command -> Z) (c : command) (files : filesystem)
  : proc_result :=
  {| exit_code := codes c;
     stdout := if is_tailor c then "[[10:2, 37:2]]
" else "";
     fs_after := files |}.

Definition world (role : NodeRole) (commit_index : pyval)
                 (codes : command -> Z) (view : nat -> db_reply)
                 (time : nat -> Z) : World := {|
  context := ctx role;
  json_load := fun _ => Some (descriptor commit_index);
  known_storage := fun _ => true;
  remote_object := remote;
  run_process := run codes;
  executable := fun _ => true;
  override_layer := "[mysqld]
";
  render_mycnf := fun text => Some text;
  status_view := view;
  clock := time;
|}.

Definition files : filesystem :=
  <["/restore_context.json" := File "root" "{}"]> ∅.

End Demo.

(** * Notions used in the statements *)

(** ** Text layouts *)

Module Layout.
Import Py.

Definition first_is_space (s : string) : bool :=
  match s with EmptyString => false | String c _ => is_space c end.

Definition is_blank (s : string) : Prop := forall_chars is_space s = true.

Definition is_token (t : string) : Prop :=
  t <> "" /\ forall_chars (fun c => negb (is_space c)) t = true.

(** Tokens with the blank gaps after them, laid out as text. *)
Fixpoint render_tokens (toks : list (string * string)) : string :=
  match toks with
  | [] => ""
  | (t, gap) :: rest => t ++ gap ++ render_tokens rest
  end.

Fixpoint tokens_wf (toks : list (string * string)) : Prop :=
  match toks with
  | [] => True
  | (t, gap) :: rest =>
      is_token t /\ is_blank gap /\ (rest <> [] -> gap <> "") /\ tokens_wf rest
  end.

End Layout.

(** ** The role check and the descriptor *)

Definition restore_role (r : NodeRole) : bool :=
  role_eqb r Candidate || role_eqb r Learner.

(** The exceptions [start] can raise before it looks at the role: they all
    come from reading the descriptor. *)
Definition descriptor_error (e : exn) : Prop :=
  match e with
  | FileNotFoundError _ | IsADirectoryError _ | JSONDecodeError | KeyError _ => True
  | _ => False
  end.

(** The descriptor at [path] loads to [params]. *)
Definition descriptor_loads (w : World) (path : string) (st : State)
                            (params : gmap string pyval) : Prop :=
  exists o c, fs st !! path = Some (File o c)
              /\ json_load w (Py.universal_newlines c) = Some params.

Definition request_fields : list string :=
  ["backupCommitIndex"; "backupFilePath"; "binlogDirPath"; "storageName"; "sink"].

Definition has_request_fields (params : gmap string pyval) : Prop :=
  Forall (fun k => is_Some (params !! k)) request_fields.

(** ** The errors the driver raises by itself *)

Definition commit_index_error : exn := Exception "can NOT get logger commit index".


Definition timeout_error : exn := TimeoutError "binlog apply timeout!".

(** ** Rounds of the catch-up monitor *)

(** The state after one round of the loop body: the clock read, the sleep
    and the status query. *)
Definition poll_state (port : string) (st : State) : State :=
  log_event (EvQuery port (INTERNAL_MARK ++ status_sql))
            (count_query (log_event (EvSleep 10) (tick st))).

(** What the status check makes of the reply to the k-th query. *)
Definition poll_outcome (w : World) (end_log_index : string) (k : nat)
  : outcome bool :=
  status_ready (snd (reply_result (status_view w k))) end_log_index.

(** ** Rows of the status view *)

(** The text of a fetched row, and the number in the third-from-last
    tab-separated column of a line of text. *)
Definition row_line (row : list string) : string :=
  Py.join (String Py.TAB "") row.





(** Each row takes one line of the rendered text. *)
Definition one_line_each (rows : list (list string)) : Prop :=
  Forall (fun row => Py.has_char Py.LF (row_line row) = false) rows.

(** ** Tokens of the recovery marker and of the index tool *)

(** [l[1] if len(l) >= 2 else l[0]] on the tokens, [None] for none. *)
Definition second_or_first (tokens : list string) : option string :=
  match tokens with
  | _ :: second :: _ => Some second
  | [first] => Some first
  | [] => None
  end.




(** ** The segment index file *)

Definition staged_path (binlog : string) : string :=
  Py.path_join RESTORE_TEMP_DIR binlog.

Definition log_path (w : World) (binlog : string) : string :=
  Py.path_join (volume_data (context w) "log") binlog.

(** The text of an index file: each path followed by a newline. *)
Fixpoint index_text (paths : list string) : string :=
  match paths with
  | [] => ""
  | p :: paths' => p ++ String Py.LF (index_text paths')
  end.


(** No line boundary of [str.splitlines] occurs in the string. *)
Definition single_line (s : string) : Prop :=
  Py.forall_chars (fun c => negb (Py.is_linebreak c)) s = true.

Definition is_file_node (o : option node) : bool :=
  match o with Some (File _ _) => true | _ => false end.

Definition not_dir_node (o : option node) : bool :=
  match o with Some (Dir _) => false | _ => true end.

(** What the importer needs of a segment: it is staged as a file, no
    directory sits where it goes, and where it goes is neither the staged
    file itself nor the index file. *)
Definition segment_ready (w : World) (files : filesystem) (binlog : string) : bool :=
  is_file_node (files !! staged_path binlog)
  && not_dir_node (files !! log_path w binlog)
  && negb (String.eqb (staged_path binlog) (log_path w binlog))
  && negb (String.eqb (log_path w binlog) (index_file_path w)).

Definition import_ready (w : World) (files : filesystem)
                        (manifest : list string) : bool :=
  not_dir_node (files !! index_file_path w)
  && forallb (segment_ready w files) manifest.

(** The file system after one segment has been imported. *)
Definition after_segment (w : World) (binlog owner data : string)
                         (files : filesystem) : filesystem :=
  alter (append_data (String Py.LF "")) (index_file_path w)
    (alter (append_data (log_path w binlog)) (index_file_path w)
       (alter (set_owner "mysql") (log_path w binlog)
          (<[log_path w binlog := File owner data]> files))).

(** ** Decimal numerals *)

(** The number a run of decimal digits stands for, most significant
    digit first, continuing from [acc]. *)
Fixpoint uint_value (acc : Z) (d : Decimal.uint) : Z :=
  match d with
  | Decimal.Nil => acc
  | Decimal.D0 d => uint_value (acc * 10 + 0) d
  | Decimal.D1 d => uint_value (acc * 10 + 1) d
  | Decimal.D2 d => uint_value (acc * 10 + 2) d
  | Decimal.D3 d => uint_value (acc * 10 + 3) d
  | Decimal.D4 d => uint_value (acc * 10 + 4) d
  | Decimal.D5 d => uint_value (acc * 10 + 5) d
  | Decimal.D6 d => uint_value (acc * 10 + 6) d
  | Decimal.D7 d => uint_value (acc * 10 + 7) d
  | Decimal.D8 d => uint_value (acc * 10 + 8) d
  | Decimal.D9 d => uint_value (acc * 10 + 9) d
  end.

Definition sign_or_digit (c : ascii) : bool := Py.is_digit c || Ascii.eqb c "-".

(** ** Numbered log segments *)

(** [int(line.split('.')[-1])] on a line of the index file, [None] when
    it raises. *)
Definition suffix_number (line : string) : option Z :=
  Py.last_item (Py.split "." line) ≫= Py.int.

(** The name [show_last_and_first_binlog] builds for a number. *)
Definition binlog_name (n : Z) : string := "mysql_bin." ++ Py.fmt_06d n.

(** The running maximum and minimum of the scan, from its two
    sentinels. *)
Definition newest (ns : list Z) : Z := fold_left (fun acc n => Z.max n acc) ns (-1).
Definition oldest (ns : list Z) : Z := fold_left (fun acc n => Z.min n acc) ns 1000000000.

(** ** Cells of a fetched row *)

Definition clean_cell (cell : string) : Prop :=
  Py.has_char Py.TAB cell = false /\ Py.has_char Py.LF cell = false.

(** ** The first request field a descriptor lacks *)

Definition first_missing_field (params : gmap string pyval) : option string :=
  List.find (fun k => match params !! k with None => true | Some _ => false end)
            request_fields.

(** ** Fetching the log segments *)

(** The body of the loop of [download_binlogbackup_file]. *)
Definition fetch_segment (w : World) (binlog_dir_path binlog : string) : M unit :=
  download_to_file w (Py.path_join binlog_dir_path binlog) (staged_path binlog).

Definition manifest_remote (binlog_dir_path : string) : string :=
  Py.path_join binlog_dir_path "binlog_list".

(** ** The working directories *)

(** One [if not os.path.exists(p): os.mkdir(p)] of [mkdir_needed], and
    what it does to the file system. *)
Definition ensure (p : string) : M unit :=
  e ← path_exists p; if e : bool then mret tt else os_mkdir p.

Definition ensure_dir (m : filesystem) (p : string) : filesystem :=
  match m !! p with Some _ => m | None => <[p := Dir "root"]> m end.

Definition give_to_mysql (m : filesystem) (p : string) : filesystem :=
  alter (set_owner "mysql") p m.

Definition volume_dirs (w : World) : list string :=
  map (volume_data (context w)) ["data"; "log"; "tmp"; "run"].

(** The file system [mkdir_needed] leaves. *)
Definition after_mkdir_needed (w : World) (m : filesystem) : filesystem :=
  foldl give_to_mysql
        (foldl ensure_dir m (RESTORE_TEMP_DIR :: volume_dirs w))
        (volume_dirs w).

Definition owner_of (o : option node) : option string :=
  match o with
  | Some (Dir owner) | Some (File owner _) => Some owner
  | None => None
  end.

(** ** The configuration files *)

Definition content_of (o : option node) : option string :=
  match o with Some (File _ c) => Some c | _ => None end.

(** The events of a completed [initialize_local_mycnf] that keeps the
    override layer, and of one that writes it anew. *)
Definition mycnf_events_kept (w : World) (rendered : string) : list event :=
  let p := mycnf_path (context w) in
  [EvOpenW p; EvLock p; EvWrite p rendered; EvUnlock p].


(** ** What a computation adds to the history *)

(** [m] only appends events of the kind [E] and leaves the list of live
    children alone. *)
Definition steps {A} (E : event -> Prop) (m : M A) : Prop :=
  forall st, exists evs,
    history (snd (m st)) = (history st ++ evs)%list
    /\ Forall E evs
    /\ live (snd (m st)) = live st.

(** Events of the phases before the engine is started, and of the
    metadata sync after it has been stopped. *)
Definition setup_event (e : event) : Prop :=
  match e with
  | EvSpawn _ | EvKill _ | EvWait _ | EvSleep _ | EvQuery _ _
  | EvMarkInitialized => False
  | _ => True
  end.

(** Events of the catch-up monitor. *)
Definition poll_event (e : event) : Prop :=
  match e with EvSleep _ | EvQuery _ _ => True | _ => False end.

Definition is_spawn (e : event) : bool :=
  match e with EvSpawn _ => true | _ => false end.

Definition is_mark (e : event) : bool :=
  match e with EvMarkInitialized => true | _ => false end.

(** ** The shape of a restoring run *)

(** The setup ended with a force-init that exited with status 0. *)
Definition force_init_done (w : World) (setup : list event) : Prop :=
  exists before csi term,
    setup = (before ++ [EvRun (init_metadata_cmd w csi term) 0])%list.

(** How a run that got past the role check can end, given the history
    [h0] and the live children [l0] it started from: before the engine
    is started; in the monitor, the engine left running; after the
    engine has been stopped, in the metadata sync; or normally, the node
    marked initialized. *)
Definition run_shape (w : World) (h0 : list event) (l0 : list command)
                     (r : outcome unit) (st' : State) : Prop :=
  let c := engine_cmd w in
  exists setup tail,
    history st' = (h0 ++ setup ++ tail)%list
    /\ Forall setup_event setup
    /\ ((tail = [] /\ r <> Ok tt /\ live st' = l0)
        \/ (exists polls,
              tail = EvSpawn c :: polls
              /\ Forall poll_event polls /\ force_init_done w setup
              /\ (r = Raise timeout_error \/ r = OutOfFuel)
              /\ live st' = (l0 ++ [c])%list)
        \/ (exists polls sync_events,
              tail = (EvSpawn c :: polls ++ EvKill c :: EvWait c :: sync_events)%list
              /\ Forall poll_event polls /\ force_init_done w setup
              /\ Forall setup_event sync_events
              /\ (exists e, r = Raise e)
              /\ live st' = remove_first c (l0 ++ [c]))
        \/ (exists polls,
              tail = (EvSpawn c :: polls
                      ++ [EvKill c; EvWait c; EvRun (sync_metadata_cmd w) 0;
                          EvMarkInitialized])%list
              /\ Forall poll_event polls /\ force_init_done w setup
              /\ r = Ok tt
              /\ live st' = remove_first c (l0 ++ [c]))).

Definition shaped (w : World) (m : M unit) : Prop :=
  forall st, run_shape w (history st) (live st) (fst (m st)) (snd (m st)).

(** * Scenarios on the concrete node *)

Module Scenario.

Definition all_succeed : command -> Z := fun _ => 0.

(** The two shell children ([xbstream] and [xtrabackup]) fail, the
    others succeed. *)
Definition shell_children_fail (c : command) : Z :=
  match c with
  | Shell line => if String.prefix "/tools/xstore/current/xtrabackup/8.0-2/xcluster_xtrabackup80/bin/xbstream" line then 1 else 2
  | Argv _ => 0
  end.

Definition caught_up : nat -> db_reply := fun _ =>
  DbRows [["1"; "2"; "1"; "40"; "2"; "40"; "Leader"; "1"; "40"; "Yes"; "Normal"]].

Definition lagging : nat -> db_reply := fun _ =>
  DbRows [["1"; "2"; "1"; "40"; "2"; "40"; "Leader"; "1"; "12"; "No"; "Normal"]].

(** A clock that advances by one second per reading, and one that
    advances by a day per reading. *)
Definition seconds : nat -> Z := fun k => 1700000000 + Z.of_nat k.
Definition days : nat -> Z := fun k => 1700000000 + 86400 * Z.of_nat k.

Definition descriptor_path : string := "/restore_context.json".

Definition voter_run : outcome unit * State :=
  start (Demo.world Voter PNone all_succeed caught_up seconds)
        3 descriptor_path (initial_state Demo.files).

Definition failing_children_run : outcome unit * State :=
  start (Demo.world Candidate PNone shell_children_fail caught_up seconds)
        3 descriptor_path (initial_state Demo.files).

Definition healthy_run : outcome unit * State :=
start (Demo.world Candidate PNone all_succeed caught_up seconds)
      3 descriptor_path (initial_state Demo.files).

Definition timeout_run : outcome unit * State :=
  start (Demo.world Learner PNone all_succeed lagging days)
        5 descriptor_path (initial_state Demo.files).

Definition exit_statuses (h : list event) : list Z :=
  omap (fun e => match e with EvRun _ code => Some code | _ => None end) h.

Definition kills (h : list event) : list command :=
  omap (fun e => match e with EvKill c => Some c | _ => None end) h.

End Scenario.

Module StatusScenario.



Definition caught_up_rows : list (list string) :=
  [["1"; "2"; "1"; "40"; "2"; "40"; "Leader"; "1"; "40"; "Yes"; "Normal"]].

Definition world (view : nat -> db_reply) : World :=
  Demo.world Learner PNone Scenario.all_succeed view Scenario.seconds.

End StatusScenario.

Module MarkerScenario.

Definition world : World :=
  Demo.world Candidate PNone Scenario.all_succeed Scenario.caught_up
             Scenario.seconds.

(** A marker as the backup tool leaves it: log file name, tab,
    position, newline. *)
Definition tokens : list (string * string) :=
  [("mysql_bin.000003", String Py.TAB ""); ("4567", String Py.LF "")].

Definition with_marker (content : string) : State :=
  initial_state (<[marker_path world := File "mysql" content]> Demo.files).

Definition blank : string := String " " (String Py.LF "").

End MarkerScenario.

Module ImportScenario.

Definition world : World := MarkerScenario.world.

Definition manifest : list string := ["seg.000001"; "seg.000003"; "seg.000002"].

(** The segments are staged and an index file from an earlier run is
    still there. *)
Definition files : filesystem :=
  <["/data/mysql/restore/seg.000001" := File "root" "log-1"]>
  (<["/data/mysql/restore/seg.000002" := File "root" "log-2"]>
  (<["/data/mysql/restore/seg.000003" := File "root" "log-3"]>
  (<["/data/mysql/log" := Dir "mysql"]>
  (<["/data/mysql/log/mysql_bin.index" := File "mysql" "/data/mysql/log/old.000009
"]> ∅)))).

Definition run : outcome unit * State :=
  copy_binlog_to_new_path world manifest (initial_state files).

End ImportScenario.

(** ** Further cases on the concrete node *)

Module Cases.

Definition world : World := MarkerScenario.world.

(** A node like the concrete one, with its own descriptor, storage
    registry, remote store, child processes and status view. *)
Definition node (descriptor : gmap string pyval)
                (storage : string -> bool)
                (store : string -> option string)
                (run : command -> filesystem -> proc_result)
                (view : nat -> db_reply) : World := {|
  context := Demo.ctx Candidate;
  json_load := fun _ => Some descriptor;
  known_storage := storage;
  remote_object := store;
  run_process := run;
  executable := fun _ => true;
  override_layer := "[mysqld]
";
  render_mycnf := fun text => Some text;
  status_view := view;
  clock := Scenario.seconds;
|}.


Definition stray_line : string := "/data/mysql/log/mysql_bin.000001
/data/mysql/log/mysql_bin.index
".

Definition with_index (content : string) : State :=
  initial_state (<[index_file_path world := File "mysql" content]> ∅).

(** Three numbered segments staged for the import. *)
Definition staged : filesystem :=
  <["/data/mysql/restore/mysql_bin.000001" := File "root" "log-1"]>
  (<["/data/mysql/restore/mysql_bin.000002" := File "root" "log-2"]>
  (<["/data/mysql/restore/mysql_bin.000003" := File "root" "log-3"]> ∅)).

(** An index tool that fails without printing anything. *)
Definition silent_tool (c : command) (files : filesystem) : proc_result :=
  {| exit_code := 1; stdout := ""; fs_after := files |}.

Definition silent_tool_node : World :=
  node (Demo.descriptor PNone) (fun _ => true) Demo.remote silent_tool
       Scenario.caught_up.

(** A registry that knows no storage. *)
Definition no_storage_node : World :=
  node (Demo.descriptor PNone) (fun _ => false) Demo.remote
       (Demo.run Scenario.all_succeed) Scenario.caught_up.

(** A descriptor without its third field. *)
Definition short_descriptor : gmap string pyval :=
  delete "binlogDirPath" (Demo.descriptor PNone).

Definition short_descriptor_node : World :=
  node short_descriptor (fun _ => true) Demo.remote
       (Demo.run Scenario.all_succeed) Scenario.caught_up.

(** A remote store whose manifest names a segment that is not there. *)
Definition store_with_gap (name : string) : option string :=
  if String.eqb name "backups/binlog/binlog_list"
  then Some "mysql_bin.000001
mysql_bin.000002
mysql_bin.000003
"
  else if String.eqb name "backups/binlog/mysql_bin.000001" then Some "log-1"
  else if String.eqb name "backups/binlog/mysql_bin.000003" then Some "log-3"
  else None.

Definition gap_node : World :=
  node (Demo.descriptor PNone) (fun _ => true) store_with_gap
       (Demo.run Scenario.all_succeed) Scenario.caught_up.

(** An engine that has caught up at the third poll, and one that
    refuses the connection. *)
Definition late (k : nat) : db_reply :=
  if (k <? 2)%nat then Scenario.lagging k else Scenario.caught_up k.

Definition late_node : World :=
  Demo.world Learner PNone Scenario.all_succeed late Scenario.seconds.



(** The configuration directory, with and without an override file. *)
Definition conf_dir : filesystem := <["/data/mysql/conf" := Dir "root"]> ∅.

Definition override_text : string := "[mysqld]
port = 3306
".

Definition conf_with_override : filesystem :=
  <["/data/mysql/conf/my.cnf.override" := File "root" override_text]> conf_dir.

(** An override layer of two sections. *)
Definition layer : Config.sections :=
  [("mysqld", [("port", Some "3306"); ("big_tables", None)]);
   ("client", [("user", Some "root")])].

(** The history of the healthy run up to the first child started in the
    background, and after it. *)
Fixpoint until_spawn (h : list event) : list event :=
  match h with
  | [] => []
  | e :: h' => if is_spawn e then [] else e :: until_spawn h'
  end.

Fixpoint after_spawn (h : list event) : list event :=
  match h with
  | [] => []
  | e :: h' => if is_spawn e then h' else after_spawn h'
  end.

Definition healthy_node : World :=
  Demo.world Candidate PNone Scenario.all_succeed Scenario.caught_up
             Scenario.seconds.

End Cases.

(** * Proof automation *)

Ltac run_monad :=
  unfold mbind, M_bind, mret, M_ret, raise, get_state, modify, of_option, lift;
  simpl.

(** * Lemmas and theorems *)

(** ** Facts about the string primitives *)

Module PyFacts.
Import Py Layout.

Lemma split_ws_space (c : ascii) (s : string) :
  is_space c = true -> split_ws (String c s) = split_ws s.
Proof. intros H. cbn [split_ws]. rewrite H. reflexivity. Qed.

Lemma split_ws_nonspace (c : ascii) (s : string) :
  is_space c = false ->
  split_ws (String c s)
  = if first_is_space s then String c "" :: split_ws s
    else match split_ws s with
         | t :: ts => String c t :: ts
         | [] => [String c ""]
         end.
Proof.
  intros H. cbn [split_ws]. rewrite H.
  destruct s as [|c' s]; [reflexivity|]. cbn [first_is_space].
  destruct (is_space c'); reflexivity.
Qed.

Lemma split_ws_nil (s : string) :
  split_ws s = [] <-> is_blank s.
Proof.
  unfold is_blank. induction s as [|c s IH]; [easy|].
  cbn [forall_chars]. destruct (is_space c) eqn:Hc.
  - rewrite split_ws_space by exact Hc. exact IH.
  - rewrite split_ws_nonspace by exact Hc. simpl.
    split; [|discriminate].
    destruct (first_is_space s); [discriminate|].
    destruct (split_ws s); discriminate.
Qed.

Lemma lstrip_blank (s : string) : is_blank s -> lstrip_by is_space s = "".
Proof.
  unfold is_blank. induction s as [|c s IH]; [reflexivity|].
  cbn [forall_chars lstrip_by]. destruct (is_space c); [exact IH|discriminate].
Qed.

Lemma split_ws_lstrip (s : string) :
  split_ws (lstrip_by is_space s) = split_ws s.
Proof.
  induction s as [|c s IH]; [reflexivity|].
  cbn [lstrip_by]. destruct (is_space c) eqn:Hc; [|reflexivity].
  rewrite split_ws_space by exact Hc. exact IH.
Qed.

Lemma rstrip_cons (p : ascii -> bool) (c : ascii) (s : string) :
  rstrip_by p (String c s)
  = if p c && is_empty (rstrip_by p s) then "" else String c (rstrip_by p s).
Proof. reflexivity. Qed.

Lemma rstrip_first_is_space (s : string) :
  rstrip_by is_space s <> "" ->
  first_is_space (rstrip_by is_space s) = first_is_space s.
Proof.
  destruct s as [|c s]; [reflexivity|]. rewrite rstrip_cons.
  destruct (is_space c && is_empty (rstrip_by is_space s));
    [congruence|reflexivity].
Qed.

Lemma split_ws_rstrip (s : string) :
  split_ws (rstrip_by is_space s) = split_ws s.
Proof.
  induction s as [|c s IH]; [reflexivity|]. rewrite rstrip_cons.
  destruct (is_space c) eqn:Hc; cbn [andb].
  - rewrite (split_ws_space c s Hc).
    destruct (rstrip_by is_space s) eqn:Hr; cbn [is_empty].
    + rewrite <- IH. reflexivity.
    + rewrite split_ws_space by exact Hc. exact IH.
  - rewrite !split_ws_nonspace by exact Hc. rewrite IH.
    destruct (rstrip_by is_space s) as [|c' r] eqn:Hr.
    + cbn [first_is_space]. rewrite <- IH. cbn [split_ws].
      destruct (first_is_space s) eqn:Hs; [|reflexivity].
      destruct s as [|c2 s2]; [discriminate|]. cbn [first_is_space] in Hs.
      rewrite rstrip_cons, Hs in Hr. cbn [andb] in Hr.
      destruct (is_empty (rstrip_by is_space s2)); [reflexivity|discriminate].
    + rewrite <- Hr, rstrip_first_is_space by (rewrite Hr; discriminate).
      reflexivity.
Qed.

Lemma split_ws_strip (s : string) : split_ws (strip s) = split_ws s.
Proof. unfold strip, strip_by. rewrite split_ws_rstrip. apply split_ws_lstrip. Qed.

Lemma strip_blank (s : string) : is_blank s -> strip s = "".
Proof. intros H. unfold strip, strip_by. rewrite lstrip_blank by exact H. reflexivity. Qed.

Lemma universal_newlines_first (s : string) :
  first_is_space (universal_newlines s) = first_is_space s
  /\ (universal_newlines s = "" -> s = "").
Proof.
  destruct s as [|c s]; [easy|]. cbn [universal_newlines first_is_space].
  destruct (Ascii.eqb_spec c CR) as [->|Hne].
  - destruct s as [|c' s]; [easy|].
    destruct (Ascii.eqb_spec c' LF) as [->|]; easy.
  - easy.
Qed.

Lemma split_ws_universal_newlines (s : string) :
  split_ws (universal_newlines s) = split_ws s.
Proof.
  remember (String.length s) as n eqn:Hn.
  revert s Hn. induction n as [n IH] using lt_wf_ind. intros s Hn.
  destruct s as [|c s]; [reflexivity|]. cbn [universal_newlines].
  cbn [String.length] in Hn.
  destruct (Ascii.eqb_spec c CR) as [->|Hne].
  - rewrite (split_ws_space CR s eq_refl).
    destruct s as [|c' s]; [reflexivity|]. cbn [String.length] in Hn.
    destruct (Ascii.eqb_spec c' LF) as [->|Hn'].
    + rewrite (IH (S (String.length s))) by (reflexivity || lia).
      reflexivity.
    + rewrite (split_ws_space LF _ eq_refl).
      apply (IH (S (String.length s))); [lia|reflexivity].
  - destruct (is_space c) eqn:Hc.
    + rewrite !split_ws_space by exact Hc.
      apply (IH (String.length s)); [lia|reflexivity].
    + rewrite !split_ws_nonspace by exact Hc.
      rewrite (proj1 (universal_newlines_first s)).
      rewrite (IH (String.length s)) by (reflexivity || lia).
      reflexivity.
Qed.

Lemma split_ws_blank_app (b s : string) :
  is_blank b -> split_ws (b ++ s) = split_ws s.
Proof.
  unfold is_blank. induction b as [|c b IH]; [reflexivity|].
  cbn [forall_chars]. intros [Hc Hb]%andb_prop.
  change (String c b ++ s) with (String c (b ++ s)).
  rewrite split_ws_space by exact Hc. auto.
Qed.

Lemma split_ws_token_app (t s : string) :
  is_token t -> first_is_space s = true \/ s = "" ->
  split_ws (t ++ s) = t :: split_ws s.
Proof.
  intros [Hne Ht] Hs. induction t as [|c t IH]; [congruence|].
  cbn [forall_chars] in Ht. apply andb_prop in Ht as [Hc Ht].
  apply negb_true_iff in Hc.
  change (String c t ++ s) with (String c (t ++ s)).
  rewrite split_ws_nonspace by exact Hc.
  destruct t as [|c2 t].
  - change ("" ++ s) with s. destruct Hs as [-> | ->]; reflexivity.
  - rewrite IH by (discriminate || exact Ht).
    change (String c2 t ++ s) with (String c2 (t ++ s)).
    cbn [first_is_space forall_chars] in *.
    apply andb_prop in Ht as [Hc2 _]. apply negb_true_iff in Hc2.
    rewrite Hc2. reflexivity.
Qed.

Lemma split_ws_render (toks : list (string * string)) :
  tokens_wf toks -> split_ws (render_tokens toks) = map fst toks.
Proof.
  induction toks as [|[t gap] rest IH]; [reflexivity|].
  cbn [tokens_wf render_tokens map fst]. intros (Ht & Hgap & Hsep & Hrest).
  rewrite split_ws_token_app; [| exact Ht |].
  - rewrite split_ws_blank_app by exact Hgap. rewrite IH by exact Hrest.
    reflexivity.
  - destruct gap as [|g gap].
    + destruct rest as [|r rest]; [right; reflexivity|].
      exfalso. apply Hsep; [discriminate|reflexivity].
    + left. unfold is_blank in Hgap. cbn [forall_chars] in Hgap.
      apply andb_prop in Hgap as [Hg _]. exact Hg.
Qed.

Lemma app_assoc_s (a b c : string) : (a ++ b) ++ c = a ++ (b ++ c).
Proof. induction a as [|x a IH]; [reflexivity|]. simpl. rewrite IH. reflexivity. Qed.

Lemma forall_chars_app (p : ascii -> bool) (u v : string) :
  forall_chars p (u ++ v) = forall_chars p u && forall_chars p v.
Proof.
  induction u as [|c u IH]; [reflexivity|]. simpl. rewrite IH.
  apply andb_assoc.
Qed.

Lemma has_char_app (x : ascii) (u v : string) :
  has_char x (u ++ v) = has_char x u || has_char x v.
Proof.
  induction u as [|c u IH]; [reflexivity|]. simpl. rewrite IH.
  apply orb_assoc.
Qed.

Lemma has_char_forall (q : ascii -> bool) (x : ascii) (s : string) :
  forall_chars q s = true -> q x = false -> has_char x s = false.
Proof.
  intros Hs Hx. induction s as [|c s IH]; [reflexivity|].
  simpl in *. apply andb_prop in Hs as [Hc Hs].
  rewrite (IH Hs), orb_false_r.
  destruct (Ascii.eqb_spec c x) as [->|]; congruence.
Qed.



Lemma rstrip_all (p : ascii -> bool) (u : string) :
  forall_chars p u = true -> rstrip_by p u = "".
Proof.
  induction u as [|c u IH]; [reflexivity|]. simpl.
  intros [Hc Hu]%andb_prop. rewrite Hc, (IH Hu). reflexivity.
Qed.

Lemma rstrip_app_all (p : ascii -> bool) (v u : string) :
  forall_chars p u = true -> rstrip_by p (v ++ u) = rstrip_by p v.
Proof.
  intros Hu. induction v as [|c v IH]; [apply rstrip_all, Hu|].
  simpl. rewrite IH. reflexivity.
Qed.

Lemma rstrip_none (p : ascii -> bool) (s : string) :
  forall_chars (fun c => negb (p c)) s = true -> rstrip_by p s = s.
Proof.
  induction s as [|c s IH]; [reflexivity|]. simpl.
  intros [Hc Hs]%andb_prop. apply negb_true_iff in Hc.
  rewrite Hc, (IH Hs). reflexivity.
Qed.



Lemma forall_chars_weaken (p q : ascii -> bool) (s : string) :
  (forall c, p c = true -> q c = true) ->
  forall_chars p s = true -> forall_chars q s = true.
Proof.
  intros Hpq. induction s as [|c s IH]; [reflexivity|]. simpl.
  intros [Hc Hs]%andb_prop. rewrite (Hpq c Hc). auto.
Qed.

Lemma split_no_sep (x : ascii) (u : string) :
  has_char x u = false -> split x u = [u].
Proof.
  induction u as [|c u IH]; [reflexivity|]. simpl.
  intros [Hc Hu]%orb_false_elim. rewrite Hc, (IH Hu). reflexivity.
Qed.

Lemma split_app_sep (x : ascii) (u v : string) :
  has_char x u = false -> split x (u ++ String x v) = u :: split x v.
Proof.
  induction u as [|c u IH]; simpl.
  - intros _. rewrite Ascii.eqb_refl. reflexivity.
  - intros [Hc Hu]%orb_false_elim. rewrite Hc, (IH Hu). reflexivity.
Qed.

Lemma split_join (x : ascii) (l : list string) :
  l <> [] -> Forall (fun f => has_char x f = false) l ->
  split x (join (String x "") l) = l.
Proof.
  intros Hne Hl. induction Hl as [|f l Hf Hl IH]; [congruence|].
  destruct l as [|g l].
  - simpl. apply split_no_sep, Hf.
  - change (join (String x "") (f :: g :: l))
      with (f ++ String x (join (String x "") (g :: l))).
    rewrite split_app_sep by exact Hf. rewrite IH by discriminate.
    reflexivity.
Qed.

End PyFacts.

(** ** The role check *)

Lemma start_skips_other_roles (w : World) (fuel : nat) (path : string) (st : State) :
  restore_role (node_role (context w)) = false ->
  snd (start w fuel path st) = st
  /\ (fst (start w fuel path st) = Ok tt
      \/ exists e, fst (start w fuel path st) = Raise e /\ descriptor_error e).
Proof.
  intros Hrole. unfold restore_role in Hrole.
  apply orb_false_elim in Hrole as [Hc Hl].
  unfold start, read_text, getitem. run_monad.
  destruct (fs st !! path) as [[o|o c]|]; simpl;
    [split; [reflexivity|right; eexists; split; [reflexivity|exact I]]| |
     split; [reflexivity|right; eexists; split; [reflexivity|exact I]]].
  destruct (json_load w (Py.universal_newlines c)) as [params|]; simpl;
    [|split; [reflexivity|right; eexists; split; [reflexivity|exact I]]].
  repeat match goal with
  | |- context [params !! ?k] =>
      destruct (params !! k); simpl;
      [|split; [reflexivity|right; eexists; split; [reflexivity|exact I]]]
  end.
  rewrite Hc, Hl. simpl. split; [reflexivity|left; reflexivity].
Qed.

Lemma start_skips_with_descriptor (w : World) (fuel : nat) (path : string)
                                  (st : State) (params : gmap string pyval) :
  restore_role (node_role (context w)) = false ->
  descriptor_loads w path st params ->
  has_request_fields params ->
  start w fuel path st = (Ok tt, st).
Proof.
  intros Hrole (o & c & Hfile & Hjson) Hfields.
  unfold restore_role in Hrole.
  apply orb_false_elim in Hrole as [Hc Hl].
  unfold has_request_fields, request_fields in Hfields.
  repeat match goal with
  | H : Forall _ (_ :: _) |- _ =>
      apply Forall_cons in H as [[? ?] H]
  end.
  unfold start, read_text, getitem. run_monad.
  rewrite Hfile. simpl. rewrite Hjson. simpl.
  repeat match goal with
  | H : ?params !! ?k = Some _ |- _ => rewrite H; clear H; simpl
  end.
  rewrite Hc, Hl. reflexivity.
Qed.

(** C4. For every node role other than Candidate and Learner, the driver
    has no effect at all: the state after the run (file system, history of
    downloads and processes, live children) is the state before it; and
    with a descriptor that loads and has the five request fields, the run
    returns normally at the role check. *)
Theorem C4_other_roles_are_a_no_op
    (w : World) (fuel : nat) (path : string) (st : State)
    (params : gmap string pyval) :
  node_role (context w) <> Candidate ->
  node_role (context w) <> Learner ->
  snd (start w fuel path st) = st
  /\ (descriptor_loads w path st params ->
      has_request_fields params ->
      start w fuel path st = (Ok tt, st)).
Proof.
  intros Hc Hl.
  assert (Hrole : restore_role (node_role (context w)) = false).
  { unfold restore_role. destruct (node_role (context w)); simpl; congruence. }
  split.
  - apply start_skips_other_roles, Hrole.
  - intros. eapply start_skips_with_descriptor; eassumption.
Qed.

Lemma C4_other_roles_witness :
  Scenario.voter_run = (Ok tt, initial_state Demo.files).
Proof.
  unfold Scenario.voter_run.
  refine (proj2 (C4_other_roles_are_a_no_op _ _ _ _
                   (Demo.descriptor PNone) _ _) _ _).
  - discriminate.
  - discriminate.
  - exists "root", "{}". split; reflexivity.
  - unfold has_request_fields, request_fields.
    repeat constructor; vm_compute; eauto.
Defined.

(** ** Force-init and the Voter role *)

(** A run whose role is Voter with [backupCommitIndex = None] does not
    fail: it returns normally at the role check, having done nothing. *)
Lemma C1_voter_run_returns :
  fst Scenario.voter_run = Ok tt
  /\ history (snd Scenario.voter_run) = []
  /\ fst Scenario.voter_run <> Raise commit_index_error.
Proof. vm_compute. repeat split. discriminate. Qed.

(** C1, amended. When [init_mysqld_metadata] is entered with pod role
    Voter and no commit index, it raises the configuration error and
    leaves the state as it was: no process has been started by it. A run
    of [start] whose node role is Voter never gets there: it has no effect
    and does not raise that error. *)
Theorem C1_force_init_needs_commit_index
    (w : World) (cluster_start_index : pyval) (end_term : string)
    (fuel : nat) (path : string) (st : State) :
  init_mysqld_metadata w cluster_start_index PNone end_term Voter st
    = (Raise commit_index_error, st)
  /\ (node_role (context w) = Voter ->
      snd (start w fuel path st) = st
      /\ fst (start w fuel path st) <> Raise commit_index_error).
Proof.
  split; [reflexivity|].
  intros Hrole.
  destruct (start_skips_other_roles w fuel path st) as [Hst Hres].
  { rewrite Hrole. reflexivity. }
  split; [exact Hst|].
  destruct Hres as [-> | (e & -> & He)]; [discriminate|].
  intros [= ->]. exact He.
Qed.

Lemma C1_force_init_witness :
  snd Scenario.voter_run = initial_state Demo.files
  /\ fst Scenario.voter_run <> Raise commit_index_error.
Proof.
  exact (proj2 (C1_force_init_needs_commit_index
                  (Demo.world Voter PNone Scenario.all_succeed
                              Scenario.caught_up Scenario.seconds)
                  PNone "2" 3 Scenario.descriptor_path
                  (initial_state Demo.files))
               eq_refl).
Defined.

(** ** Exit statuses of the children *)

(** The two children run under [with subprocess.Popen(...)] never raise
    for their exit status. *)
Lemma decompress_ignores_exit_status (w : World) (name : string) (st : State) :
  executable w (decompress_cmd w name) = true ->
  fst (decompress_backup_file w name st) = Ok tt.
Proof.
  intros Hx. unfold decompress_backup_file, popen_run. rewrite Hx. reflexivity.
Qed.

Lemma apply_backup_ignores_exit_status (w : World) (st : State) :
  executable w (apply_backup_cmd w) = true ->
  fst (apply_backup_file w st) = Ok tt.
Proof.
  intros Hx. unfold apply_backup_file, popen_run. rewrite Hx. reflexivity.
Qed.

(** The children run through [check_run_process] do. *)
Lemma check_run_process_nonzero (w : World) (c : command) (st : State) :
  executable w c = true ->
  exit_code (run_process w c (fs st)) <> 0 ->
  fst (check_run_process w c st)
    = Raise (ProcessError c (exit_code (run_process w c (fs st)))).
Proof.
  intros Hx Hcode. unfold check_run_process, popen_run. rewrite Hx.
  run_monad. destruct (Z.eqb_spec (exit_code (run_process w c (fs st))) 0);
    [contradiction|reflexivity].
Qed.

(** C3. With [xbstream] exiting with status 1 and [xtrabackup] with
    status 2, the run goes on through the four later children, marks the
    node initialized and returns normally. *)
Theorem C3_shell_exit_status_unchecked :
  fst Scenario.failing_children_run = Ok tt
  /\ Scenario.exit_statuses (history (snd Scenario.failing_children_run))
     = [1; 2; 0; 0; 0; 0]
  /\ last (history (snd Scenario.failing_children_run)) = Some EvMarkInitialized.
Proof. vm_compute. repeat split. Qed.

(** ** The catch-up monitor *)

Lemma rows_ready_fuel (rows : list string) (e : string) :
  rows_ready rows e <> OutOfFuel.
Proof.
  induction rows as [|row rows IH]; simpl; [discriminate|].
  destruct (Py.third_from_last _); [|discriminate].
  destruct (Py.int _); [|discriminate].
  destruct (Py.int e); [|discriminate].
  destruct (_ <? _); [discriminate|exact IH].
Qed.

Lemma poll_outcome_fuel (w : World) (e : string) (k : nat) :
  poll_outcome w e k <> OutOfFuel.
Proof.
  unfold poll_outcome, status_ready.
  destruct (Py.is_empty _); [discriminate|apply rows_ready_fuel].
Qed.

Lemma check_status_run (w : World) (port e : string) (st : State) :
  check_binlog_apply_index_status w port e st
  = (poll_outcome w e (queries st),
     log_event (EvQuery port (INTERNAL_MARK ++ status_sql)) (count_query st)).
Proof.
  unfold check_binlog_apply_index_status, execute_mysqlcmd, poll_outcome, emit.
  run_monad. destruct (reply_result (status_view w (queries st))) as [stat output].
  reflexivity.
Qed.

Lemma wait_loop_unfold (w : World) (fuel : nat) (deadline : Z)
                       (port e : string) (st : State) :
  wait_loop w (S fuel) deadline port e st
  = if clock w (ticks st) <? deadline then
      match poll_outcome w e (queries st) with
      | Ok true => (Ok tt, poll_state port st)
      | OutOfFuel => (OutOfFuel, poll_state port st)
      | _ => wait_loop w fuel deadline port e (poll_state port st)
      end
    else (Raise timeout_error, tick st).
Proof.
  cbn [wait_loop]. unfold time_time, time_sleep, emit, try_except.
  run_monad. destruct (clock w (ticks st) <? deadline); [|reflexivity].
  rewrite check_status_run. simpl.
  destruct (poll_outcome w e (queries st)) as [[|]| |]; reflexivity.
Qed.

(** While the check is not ready and the deadline has not passed, the
    monitor goes round again. *)
Lemma monitor_polls_again (w : World) (fuel : nat) (deadline : Z)
                          (port e : string) (st : State) :
  clock w (ticks st) < deadline ->
  poll_outcome w e (queries st) <> Ok true ->
  wait_loop w (S fuel) deadline port e st
  = wait_loop w fuel deadline port e (poll_state port st).
Proof.
  intros Hnow Hnot. rewrite wait_loop_unfold.
  destruct (Z.ltb_spec (clock w (ticks st)) deadline); [|lia].
  pose proof (poll_outcome_fuel w e (queries st)).
  destruct (poll_outcome w e (queries st)) as [[|]| |]; congruence.
Qed.

Lemma monitor_returns_when_ready (w : World) (fuel : nat) (deadline : Z)
                                 (port e : string) (st : State) :
  clock w (ticks st) < deadline ->
  poll_outcome w e (queries st) = Ok true ->
  wait_loop w (S fuel) deadline port e st = (Ok tt, poll_state port st).
Proof.
  intros Hnow Hready. rewrite wait_loop_unfold, Hready.
  destruct (Z.ltb_spec (clock w (ticks st)) deadline); [reflexivity|lia].
Qed.

Lemma wait_loop_times_out (w : World) (port e : string) (deadline : Z) (n : nat) :
  forall (fuel : nat) (st : State),
  (forall k, (k < n)%nat ->
     clock w (ticks st + k) < deadline
     /\ poll_outcome w e (queries st + k) <> Ok true) ->
  deadline <= clock w (ticks st + n) ->
  (n < fuel)%nat ->
  fst (wait_loop w fuel deadline port e st) = Raise timeout_error
  /\ queries (snd (wait_loop w fuel deadline port e st)) = (queries st + n)%nat
  /\ (n = 0%nat -> snd (wait_loop w fuel deadline port e st) = tick st).
Proof.
  induction n as [|n IH]; intros fuel st Hpolls Hpast Hfuel;
    (destruct fuel as [|fuel]; [lia|]); rewrite wait_loop_unfold.
  - rewrite Nat.add_0_r in Hpast.
    destruct (Z.ltb_spec (clock w (ticks st)) deadline); [lia|].
    simpl. rewrite Nat.add_0_r. auto.
  - destruct (Hpolls 0%nat ltac:(lia)) as [Hnow Hnot].
    rewrite !Nat.add_0_r in *.
    destruct (Z.ltb_spec (clock w (ticks st)) deadline); [|lia].
    destruct (IH fuel (poll_state port st)) as (Hres & Hq & _).
    + intros k Hk. destruct (Hpolls (S k) ltac:(lia)) as [Hc Hp].
      simpl. rewrite <- !Nat.add_succ_r. auto.
    + simpl. rewrite <- Nat.add_succ_r. exact Hpast.
    + lia.
    + simpl in Hq. pose proof (poll_outcome_fuel w e (queries st)) as Hfl.
      destruct (poll_outcome w e (queries st)) as [[|]| |];
        try congruence; (split; [exact Hres|split; [lia|discriminate]]).
Qed.

(** C5. The monitor takes its deadline 48 hours after the first clock
    reading. If the next [n] readings are before the deadline with the
    status check not ready at any of them, and the reading after those is
    at or past the deadline, the monitor raises the timeout error, having
    sent exactly [n] status queries. For [n = 0], the deadline already
    passed at loop entry, the monitor has only read the clock twice: no
    sleep, no query, no status row looked at. *)
Theorem C5_monitor_times_out_at_deadline
    (w : World) (port e : string) (st : State) (n fuel : nat) :
  let deadline := clock w (ticks st) + 48 * 60 * 60 in
  let run := wait_binlog_apply_ready w fuel port e st in
  (forall k, (k < n)%nat ->
     clock w (S (ticks st) + k) < deadline
     /\ poll_outcome w e (queries st + k) <> Ok true) ->
  deadline <= clock w (S (ticks st) + n) ->
  (n < fuel)%nat ->
  fst run = Raise timeout_error
  /\ queries (snd run) = (queries st + n)%nat
  /\ (n = 0%nat -> snd run = tick (tick st)).
Proof.
  intros deadline run Hpolls Hpast Hfuel. subst run.
  unfold wait_binlog_apply_ready, time_time. run_monad.
  exact (wait_loop_times_out w port e deadline n fuel (tick st)
           Hpolls Hpast Hfuel).
Qed.

Lemma C5_monitor_witness :
  (fst (wait_binlog_apply_ready
          (Demo.world Learner PNone Scenario.all_succeed Scenario.lagging
                      Scenario.days)
          2 "3306" "37" (initial_state Demo.files)) = Raise timeout_error)
  /\ (snd (wait_binlog_apply_ready
             (Demo.world Learner PNone Scenario.all_succeed Scenario.caught_up
                         (fun k => 200000 * Z.of_nat k))
             1 "3306" "37" (initial_state Demo.files))
      = tick (tick (initial_state Demo.files))).
Proof.
  split.
  - refine (proj1 (C5_monitor_times_out_at_deadline
                     (Demo.world Learner PNone Scenario.all_succeed
                                 Scenario.lagging Scenario.days)
                     "3306" "37" (initial_state Demo.files) 1 2 _ _ _)).
    + intros k Hk. assert (k = 0%nat) as -> by lia.
      split; [reflexivity|vm_compute; discriminate].
    + vm_compute. discriminate.
    + lia.
  - refine (proj2 (proj2 (C5_monitor_times_out_at_deadline
                     (Demo.world Learner PNone Scenario.all_succeed
                                 Scenario.caught_up
                                 (fun k => 200000 * Z.of_nat k))
                     "3306" "37" (initial_state Demo.files) 0 1 _ _ _)) eq_refl).
    + intros k Hk. lia.
    + vm_compute. discriminate.
    + lia.
Defined.

(** ** The engine process *)

(** When catch-up succeeds the engine is killed and waited for. *)
Lemma engine_killed_after_catch_up :
  fst Scenario.healthy_run = Ok tt
  /\ live (snd Scenario.healthy_run) = []
  /\ Scenario.kills (history (snd Scenario.healthy_run))
     = [engine_cmd (Demo.world Candidate PNone Scenario.all_succeed
                               Scenario.caught_up Scenario.seconds)].
Proof. vm_compute. repeat split. Qed.

(** C8. In a run where catch-up times out, [start] raises the timeout
    error with the engine process still among the live children, and no
    kill was ever issued. *)
Theorem C8_engine_survives_timeout :
  fst Scenario.timeout_run = Raise (TimeoutError "binlog apply timeout!")
  /\ live (snd Scenario.timeout_run)
     = [engine_cmd (Demo.world Learner PNone Scenario.all_succeed
                               Scenario.lagging Scenario.days)]
  /\ Scenario.kills (history (snd Scenario.timeout_run)) = []
  /\ queries (snd Scenario.timeout_run) = 1%nat.
Proof. vm_compute. repeat split. Qed.

(** ** The status check *)






Lemma rendered_lines (rows : list (list string)) :
  rows <> [] -> one_line_each rows ->
  Py.split Py.LF (render_rows rows) = map row_line rows.
Proof.
  intros Hne Hone. unfold render_rows.
  change (map (Py.join (String Py.TAB "")) rows) with (map row_line rows).
  apply PyFacts.split_join.
  - destruct rows; [congruence|discriminate].
  - exact (proj2 (List.Forall_map row_line _ rows) Hone).
Qed.








(** ** The local recovery marker *)

Lemma marker_absent (w : World) (st : State) :
  fs st !! marker_path w = None ->
  get_xtrabackup_binlog_info_from_instance_local w st = (Ok None, st).
Proof.
  intros H. unfold get_xtrabackup_binlog_info_from_instance_local, path_exists.
  run_monad. rewrite H. reflexivity.
Qed.

Lemma marker_present (w : World) (st : State) (o c : string) :
  fs st !! marker_path w = Some (File o c) ->
  get_xtrabackup_binlog_info_from_instance_local w st
  = (Ok (second_or_first (Py.split_ws c)), st).
Proof.
  intros H.
  unfold get_xtrabackup_binlog_info_from_instance_local, path_exists, read_text.
  run_monad. rewrite H. simpl. rewrite H. simpl.
  pose proof (PyFacts.split_ws_strip (Py.universal_newlines c)) as Hs.
  rewrite PyFacts.split_ws_universal_newlines in Hs.
  destruct (Py.strip (Py.universal_newlines c)) as [|a s] eqn:Hstrip.
  - simpl. rewrite <- Hs. reflexivity.
  - cbn [Py.is_empty]. rewrite Hs.
    destruct (Py.split_ws c) as [|t1 [|t2 ts]] eqn:Htok; try reflexivity.
    exfalso. rewrite <- PyFacts.split_ws_universal_newlines in Htok.
    apply PyFacts.split_ws_nil, PyFacts.strip_blank in Htok. congruence.
Qed.

(** C9. Without a marker file the function returns [None]. With a marker
    whose text is a run of tokens separated by white space (after
    optional leading white space), it returns the second token when there
    are two or more and the first when there is one. The state is
    unchanged in both cases. *)
Theorem C9_marker_second_token_else_first (w : World) (st : State) :
  (fs st !! marker_path w = None ->
   get_xtrabackup_binlog_info_from_instance_local w st = (Ok None, st))
  /\ (forall (o lead : string) (toks : list (string * string)),
        Layout.is_blank lead ->
        Layout.tokens_wf toks ->
        fs st !! marker_path w
          = Some (File o (lead ++ Layout.render_tokens toks)) ->
        get_xtrabackup_binlog_info_from_instance_local w st
        = (Ok (second_or_first (map fst toks)), st)).
Proof.
  split; [apply marker_absent|].
  intros o lead toks Hlead Hwf Hfile.
  rewrite (marker_present w st o _ Hfile).
  rewrite PyFacts.split_ws_blank_app by exact Hlead.
  rewrite PyFacts.split_ws_render by exact Hwf. reflexivity.
Qed.

Lemma C9_marker_witness :
  get_xtrabackup_binlog_info_from_instance_local MarkerScenario.world
    (initial_state Demo.files)
  = (Ok None, initial_state Demo.files)
  /\ fst (get_xtrabackup_binlog_info_from_instance_local MarkerScenario.world
            (MarkerScenario.with_marker
               (Layout.render_tokens MarkerScenario.tokens)))
     = Ok (Some "4567").
Proof.
  split.
  - exact (proj1 (C9_marker_second_token_else_first MarkerScenario.world
                    (initial_state Demo.files)) eq_refl).
  - rewrite (proj2 (C9_marker_second_token_else_first MarkerScenario.world
                      (MarkerScenario.with_marker
                         (Layout.render_tokens MarkerScenario.tokens)))
                   "mysql" "" MarkerScenario.tokens).
    + reflexivity.
    + reflexivity.
    + repeat split; discriminate.
    + reflexivity.
Defined.

(** C10. A marker file that is empty or holds only white space gives
    [None], as an absent one does; nothing is raised. *)
Theorem C10_blank_marker_gives_none (w : World) (st : State) (o c : string) :
  fs st !! marker_path w = Some (File o c) ->
  Py.forall_chars Py.is_space c = true ->
  get_xtrabackup_binlog_info_from_instance_local w st = (Ok None, st).
Proof.
  intros Hfile Hblank. rewrite (marker_present w st o c Hfile).
  apply PyFacts.split_ws_nil in Hblank. rewrite Hblank. reflexivity.
Qed.

Lemma C10_blank_marker_witness :
  get_xtrabackup_binlog_info_from_instance_local MarkerScenario.world
    (MarkerScenario.with_marker MarkerScenario.blank)
  = (Ok None, MarkerScenario.with_marker MarkerScenario.blank).
Proof.
  exact (C10_blank_marker_gives_none MarkerScenario.world
           (MarkerScenario.with_marker MarkerScenario.blank)
           "mysql" MarkerScenario.blank eq_refl eq_refl).
Defined.

(** ** The output of the index-inspection tool *)








(** ** Rebuilding the segment index file *)

Section NodeKinds.

Variable f : node -> node.
Hypothesis f_file : forall n, is_file_node (Some (f n)) = is_file_node (Some n).

Lemma alter_is_file (m : filesystem) (q p : string) :
  is_file_node (alter f q m !! p) = is_file_node (m !! p).
Proof.
  rewrite lookup_alter. destruct (decide (q = p)) as [->|]; [|reflexivity].
  destruct (m !! p); [apply f_file|reflexivity].
Qed.

Hypothesis f_dir : forall n, not_dir_node (Some (f n)) = not_dir_node (Some n).

Lemma alter_not_dir (m : filesystem) (q p : string) :
  not_dir_node (alter f q m !! p) = not_dir_node (m !! p).
Proof.
  rewrite lookup_alter. destruct (decide (q = p)) as [->|]; [|reflexivity].
  destruct (m !! p); [apply f_dir|reflexivity].
Qed.

End NodeKinds.

Lemma insert_file_is_file (m : filesystem) (q p o c : string) :
  is_file_node (m !! p) = true ->
  is_file_node (<[q := File o c]> m !! p) = true.
Proof.
  intros H. rewrite lookup_insert. destruct (decide (q = p)); [reflexivity|exact H].
Qed.

Lemma insert_file_not_dir (m : filesystem) (q p o c : string) :
  not_dir_node (m !! p) = true ->
  not_dir_node (<[q := File o c]> m !! p) = true.
Proof.
  intros H. rewrite lookup_insert. destruct (decide (q = p)); [reflexivity|exact H].
Qed.

Lemma set_owner_kind (o : string) (n : node) :
  is_file_node (Some (set_owner o n)) = is_file_node (Some n)
  /\ not_dir_node (Some (set_owner o n)) = not_dir_node (Some n).
Proof. destruct n; split; reflexivity. Qed.

Lemma append_data_kind (d : string) (n : node) :
  is_file_node (Some (append_data d n)) = is_file_node (Some n)
  /\ not_dir_node (Some (append_data d n)) = not_dir_node (Some n).
Proof. destruct n; split; reflexivity. Qed.

Lemma after_segment_ready (w : World) (binlog owner data : string)
                          (files : filesystem) (b : string) :
  segment_ready w files b = true ->
  segment_ready w (after_segment w binlog owner data files) b = true.
Proof.
  unfold segment_ready, after_segment.
  intros [[[Hs Hd]%andb_prop Hne]%andb_prop Hni]%andb_prop.
  rewrite Hne, Hni, !andb_true_r.
  rewrite !(alter_is_file _ (fun n => proj1 (append_data_kind _ n))).
  rewrite !(alter_not_dir _ (fun n => proj2 (append_data_kind _ n))).
  rewrite (alter_is_file _ (fun n => proj1 (set_owner_kind _ n))).
  rewrite (alter_not_dir _ (fun n => proj2 (set_owner_kind _ n))).
  rewrite insert_file_is_file by exact Hs.
  rewrite insert_file_not_dir by exact Hd. reflexivity.
Qed.

Lemma after_segment_index (w : World) (binlog owner data : string)
                          (files : filesystem) (o written : string) :
  log_path w binlog <> index_file_path w ->
  files !! index_file_path w = Some (File o written) ->
  after_segment w binlog owner data files !! index_file_path w
  = Some (File o (written ++ log_path w binlog ++ String Py.LF "")).
Proof.
  intros Hne Hidx. unfold after_segment.
  rewrite !lookup_alter_eq, lookup_alter_ne, lookup_insert_ne, Hidx by exact Hne.
  simpl. rewrite PyFacts.app_assoc_s. reflexivity.
Qed.

Lemma copy_one_binlog_run (w : World) (binlog : string) (st : State)
                          (o written : string) :
  fs st !! index_file_path w = Some (File o written) ->
  segment_ready w (fs st) binlog = true ->
  exists st' owner data,
    copy_one_binlog w binlog st = (Ok tt, st')
    /\ fs st' = after_segment w binlog owner data (fs st).
Proof.
  intros Hidx Hready. unfold segment_ready in Hready.
  apply andb_prop in Hready as [[[Hs Hd]%andb_prop Hne]%andb_prop Hni].
  apply negb_true_iff in Hne.
  fold (staged_path binlog) in *.
  unfold copy_one_binlog, shutil_copy, shutil_chown, file_write, path_exists, emit.
  fold (staged_path binlog). fold (log_path w binlog).
  run_monad.
  destruct (fs st !! staged_path binlog) as [[?|so data]|] eqn:Hsrc;
    try discriminate.
  destruct (fs st !! log_path w binlog) as [[?|downer dc]|] eqn:Hdst;
    try discriminate; rewrite Hne; simpl; rewrite Hdst; simpl;
    rewrite lookup_insert_eq; simpl;
    eexists _, _, data; (split; [reflexivity|reflexivity]).
Qed.

Lemma import_segments_run (w : World) (rest : list string) :
  forall (st : State) (o written : string),
  fs st !! index_file_path w = Some (File o written) ->
  forallb (segment_ready w (fs st)) rest = true ->
  exists st',
    for_each rest (copy_one_binlog w) st = (Ok tt, st')
    /\ fs st' !! index_file_path w
       = Some (File o (written ++ index_text (map (log_path w) rest))).
Proof.
  induction rest as [|binlog rest IH]; intros st o written Hidx Hready.
  - exists st. split; [reflexivity|]. simpl.
    replace (written ++ "") with written; [exact Hidx|].
    clear. induction written as [|c s IHs]; [reflexivity|]. simpl. congruence.
  - cbn [forallb] in Hready. apply andb_prop in Hready as [Hb Hrest].
    destruct (copy_one_binlog_run w binlog st o written Hidx Hb)
      as (st1 & owner & data & Hrun & Hfs).
    assert (Hni : log_path w binlog <> index_file_path w).
    { unfold segment_ready in Hb. apply andb_prop in Hb as [_ Hni].
      apply negb_true_iff in Hni. intros Heq. rewrite Heq, String.eqb_refl in Hni.
      discriminate. }
    destruct (IH st1 o (written ++ log_path w binlog ++ String Py.LF ""))
      as (st' & Hrun' & Hidx').
    + rewrite Hfs. apply after_segment_index; assumption.
    + rewrite Hfs. apply forallb_forall. intros b Hin.
      apply after_segment_ready.
      exact (proj1 (forallb_forall _ _) Hrest b Hin).
    + exists st'. split.
      * cbn [for_each]. unfold mbind, M_bind. rewrite Hrun. exact Hrun'.
      * rewrite Hidx'. cbn [map index_text].
        rewrite !PyFacts.app_assoc_s. reflexivity.
Qed.

Lemma universal_newlines_id (s : string) :
  Py.has_char Py.CR s = false -> Py.universal_newlines s = s.
Proof.
  induction s as [|c s IH]; [reflexivity|]. cbn [Py.has_char Py.universal_newlines].
  intros [Hc Hs]%orb_false_elim. rewrite Hc, (IH Hs). reflexivity.
Qed.

Lemma keep_lines_line (p rest : string) :
  Py.has_char Py.LF p = false ->
  Py.keep_lines (p ++ String Py.LF rest) = (p ++ String Py.LF "") :: Py.keep_lines rest.
Proof.
  induction p as [|c p IH]; [reflexivity|]. cbn [Py.has_char].
  intros [Hc Hp]%orb_false_elim. simpl. rewrite Hc, (IH Hp). reflexivity.
Qed.

Lemma single_line_lacks (s : string) :
  single_line s -> Py.has_char Py.LF s = false /\ Py.has_char Py.CR s = false.
Proof.
  intros H. split; eapply PyFacts.has_char_forall; try exact H; reflexivity.
Qed.

Lemma single_line_app (a b : string) :
  single_line a -> single_line b -> single_line (a ++ b).
Proof.
  unfold single_line. intros Ha Hb.
  rewrite PyFacts.forall_chars_app, Ha, Hb. reflexivity.
Qed.

Lemma single_line_join (a b : string) :
  single_line a -> single_line b -> single_line (Py.path_join a b).
Proof.
  intros Ha Hb. unfold Py.path_join.
  destruct (Py.is_abs b); [exact Hb|].
  destruct (_ || _); repeat apply single_line_app; assumption || reflexivity.
Qed.


Lemma index_text_lines (paths : list string) :
  Forall single_line paths ->
  Py.universal_newlines (index_text paths) = index_text paths
  /\ Py.keep_lines (index_text paths)
     = map (fun p => p ++ String Py.LF "") paths.
Proof.
  intros Hall. split.
  - apply universal_newlines_id.
    induction Hall as [|p paths Hp _ IH]; [reflexivity|]. cbn [index_text].
    rewrite PyFacts.has_char_app. cbn [Py.has_char].
    rewrite (proj2 (single_line_lacks p Hp)), IH. reflexivity.
  - induction Hall as [|p paths Hp _ IH]; [reflexivity|]. cbn [index_text map].
    rewrite keep_lines_line by apply (single_line_lacks p Hp).
    rewrite IH. reflexivity.
Qed.





(** ** Decimal numerals read back *)

Lemma parse_digits_uint (d : Decimal.uint) :
  forall acc, Py.parse_digits Py.AfterDigit acc (NilEmpty.string_of_uint d)
              = Some (uint_value acc d).
Proof.
  induction d; intros acc; simpl; try reflexivity; apply IHd.
Qed.

Lemma parse_digits_uint_start (d : Decimal.uint) (acc : Z) :
  d <> Decimal.Nil ->
  Py.parse_digits Py.AtStart acc (NilEmpty.string_of_uint d)
  = Some (uint_value acc d).
Proof.
  destruct d; intros Hd; try congruence; simpl; apply parse_digits_uint.
Qed.

Lemma uint_value_revapp (d d' : Decimal.uint) :
  Z.of_N (Unsigned.of_lu (Decimal.revapp d d'))
  = uint_value (Z.of_N (Unsigned.of_lu d')) d.
Proof.
  revert d'. induction d; intros d'; simpl; try reflexivity;
    rewrite IHd; f_equal; cbn [Unsigned.of_lu]; lia.
Qed.

Lemma uint_value_of_uint (d : Decimal.uint) :
  uint_value 0 d = Z.of_N (Pos.of_uint d).
Proof.
  rewrite Unsigned.of_uint_alt. unfold Decimal.rev.
  rewrite uint_value_revapp. reflexivity.
Qed.

Lemma digits_of_uint (d : Decimal.uint) :
  Py.forall_chars Py.is_digit (NilEmpty.string_of_uint d) = true.
Proof. induction d; simpl; auto. Qed.

Lemma str_of_Z_nonneg (n : Z) :
  0 <= n ->
  exists d, d <> Decimal.Nil
            /\ Py.str_of_Z n = NilEmpty.string_of_uint d
            /\ uint_value 0 d = n.
Proof.
  intros Hn. destruct n as [|p|p]; [| |lia].
  - exists (Decimal.D0 Decimal.Nil). repeat split. discriminate.
  - exists (Pos.to_uint p). split; [apply Unsigned.to_uint_nonnil|]. split.
    + unfold Py.str_of_Z. simpl. unfold NilZero.string_of_uint.
      pose proof (Unsigned.to_uint_nonnil p).
      destruct (Pos.to_uint p); congruence.
    + rewrite uint_value_of_uint, Unsigned.of_to. reflexivity.
Qed.

Lemma parse_zeros (k : nat) (t : string) :
  Py.parse_digits Py.AfterDigit 0 (Py.zeros k ++ t)
  = Py.parse_digits Py.AfterDigit 0 t.
Proof. induction k as [|k IH]; [reflexivity|]. simpl. exact IH. Qed.

Lemma parse_zfill (width : nat) (d : Decimal.uint) :
  d <> Decimal.Nil ->
  Py.parse_digits Py.AtStart 0 (Py.zfill width (NilEmpty.string_of_uint d))
  = Some (uint_value 0 d).
Proof.
  intros Hd. unfold Py.zfill.
  destruct (width - String.length (NilEmpty.string_of_uint d))%nat as [|k].
  - simpl. apply parse_digits_uint_start, Hd.
  - simpl. rewrite parse_zeros. apply parse_digits_uint.
Qed.

Lemma digits_zfill (width : nat) (s : string) :
  Py.forall_chars Py.is_digit s = true ->
  Py.forall_chars Py.is_digit (Py.zfill width s) = true.
Proof.
  intros Hs. unfold Py.zfill. rewrite PyFacts.forall_chars_app, Hs, andb_true_r.
  induction (width - String.length s)%nat; simpl; auto.
Qed.

Lemma digit_not_space (c : ascii) : Py.is_digit c = true -> Py.is_space c = false.
Proof. destruct c as [[] [] [] [] [] [] [] []]; vm_compute; congruence. Qed.

(** White space after a run of digits, or after a sign and digits, is
    dropped by [strip]. *)
Lemma strip_number (sign digits ws : string) :
  (sign = "" \/ sign = "-") ->
  digits <> "" -> Py.forall_chars Py.is_digit digits = true ->
  Layout.is_blank ws ->
  Py.strip (sign ++ digits ++ ws) = sign ++ digits.
Proof.
  intros Hsign Hne Hd Hws. unfold Py.strip, Py.strip_by.
  assert (Hns : Py.forall_chars (fun c => negb (Py.is_space c)) (sign ++ digits) = true).
  { rewrite PyFacts.forall_chars_app.
    rewrite (PyFacts.forall_chars_weaken Py.is_digit _ digits); [|
      intros c Hc; rewrite (digit_not_space c Hc); reflexivity | exact Hd].
    destruct Hsign as [-> | ->]; reflexivity. }
  assert (Hl : Py.lstrip_by Py.is_space (sign ++ digits ++ ws) = sign ++ digits ++ ws).
  { destruct Hsign as [-> | ->]; [|reflexivity].
    destruct digits as [|c digits]; [congruence|]. simpl in *.
    apply andb_prop in Hns as [Hc _]. apply negb_true_iff in Hc.
    rewrite Hc. reflexivity. }
  rewrite Hl, <- PyFacts.app_assoc_s, PyFacts.rstrip_app_all by exact Hws.
  apply PyFacts.rstrip_none, Hns.
Qed.

(** [int("%06d" % n)] is [n], also with white space after it. *)
Lemma int_fmt_06d (n : Z) (ws : string) :
  Layout.is_blank ws -> Py.int (Py.fmt_06d n ++ ws) = Some n.
Proof.
  intros Hws. unfold Py.fmt_06d. destruct (Z.ltb_spec n 0) as [Hneg|Hpos].
  - destruct (str_of_Z_nonneg (- n) ltac:(lia)) as (d & Hd & Hstr & Hval).
    rewrite Hstr. unfold Py.int.
    change (String "-" (Py.zfill 5 (NilEmpty.string_of_uint d)) ++ ws)
      with ("-" ++ Py.zfill 5 (NilEmpty.string_of_uint d) ++ ws).
    rewrite strip_number; try assumption; try (right; reflexivity).
    + simpl. rewrite parse_zfill by exact Hd. simpl. f_equal. lia.
    + unfold Py.zfill. destruct (5 - _)%nat; simpl; [|discriminate].
      destruct d; simpl; congruence.
    + apply digits_zfill, digits_of_uint.
  - destruct (str_of_Z_nonneg n Hpos) as (d & Hd & Hstr & Hval).
    rewrite Hstr.
    assert (Hne : Py.zfill 6 (NilEmpty.string_of_uint d) <> "").
    { unfold Py.zfill. destruct (6 - _)%nat; simpl; [|discriminate].
      destruct d; simpl; congruence. }
    pose proof (digits_zfill 6 _ (digits_of_uint d)) as Hdig.
    pose proof (strip_number "" _ ws (or_introl eq_refl) Hne Hdig Hws) as Hstrip.
    simpl in Hstrip. unfold Py.int. rewrite Hstrip.
    destruct (Py.zfill 6 (NilEmpty.string_of_uint d)) as [|c s] eqn:Hz; [congruence|].
    assert (Hc : Py.is_digit c = true) by (simpl in Hdig; apply andb_prop in Hdig; tauto).
    rewrite <- Hval, <- (parse_zfill 6 d Hd), Hz.
    destruct c as [[] [] [] [] [] [] [] []]; try discriminate Hc; reflexivity.
Qed.

(** ** The newest and the oldest segment *)

Lemma scan_index_numbers (lines : list string) (ns : list Z) :
  Forall2 (fun line n => suffix_number line = Some n) lines ns ->
  forall hi lo,
  scan_index lines hi lo
  = Ok (fold_left (fun acc n => Z.max n acc) ns hi,
        fold_left (fun acc n => Z.min n acc) ns lo).
Proof.
  induction 1 as [|line n lines ns Hn _ IH]; intros hi lo; [reflexivity|].
  cbn [scan_index fold_left]. unfold suffix_number in Hn.
  destruct (Py.last_item (Py.split "." line)) as [suffix|];
    cbn [mbind option_bind] in Hn; [|discriminate].
  rewrite Hn. apply IH.
Qed.

Lemma last_item_snoc {A} (l : list A) (a : A) : Py.last_item (l ++ [a]) = Some a.
Proof. unfold Py.last_item. rewrite rev_app_distr. reflexivity. Qed.

Lemma split_nonempty (x : ascii) (s : string) : Py.split x s <> [].
Proof.
  destruct s as [|c s]; [discriminate|]. cbn [Py.split].
  destruct (Ascii.eqb c x); [discriminate|]. destruct (Py.split x s); discriminate.
Qed.

Lemma last_item_split (x : ascii) (s : string) :
  exists f, Py.last_item (Py.split x s) = Some f.
Proof.
  pose proof (split_nonempty x s) as Hne.
  destruct (Py.split x s) as [|f fs] using rev_ind; [congruence|].
  exists f. apply last_item_snoc.
Qed.

(** Splitting commutes with a separator between two parts. *)
Lemma split_app (x : ascii) (u v : string) :
  Py.split x (u ++ String x v) = (Py.split x u ++ Py.split x v)%list.
Proof.
  induction u as [|c u IH]; simpl.
  - rewrite Ascii.eqb_refl. reflexivity.
  - rewrite IH. destruct (Ascii.eqb c x); [reflexivity|].
    pose proof (split_nonempty x u). destruct (Py.split x u); [congruence|reflexivity].
Qed.

Lemma last_field (x : ascii) (u v : string) :
  Py.has_char x v = false ->
  Py.last_item (Py.split x (u ++ String x v)) = Some v.
Proof.
  intros Hv. rewrite split_app, (PyFacts.split_no_sep x v Hv).
  apply last_item_snoc.
Qed.

Lemma scan_index_bad_line (good : list string) (ns : list Z) (bad : string)
                          (rest : list string) :
  Forall2 (fun line n => suffix_number line = Some n) good ns ->
  suffix_number bad = None ->
  forall hi lo, exists s, scan_index (good ++ bad :: rest) hi lo = Raise (ValueError s).
Proof.
  induction 1 as [|line n lines ns' Hn _ IH]; intros Hbad hi lo.
  - cbn [app scan_index]. unfold suffix_number in Hbad.
    destruct (last_item_split "." bad) as [suffix Hl]. rewrite Hl in *.
    cbn [mbind option_bind] in Hbad. rewrite Hbad. eauto.
  - cbn [app scan_index]. unfold suffix_number in Hn.
    destruct (Py.last_item (Py.split "." line)) as [suffix|];
      cbn [mbind option_bind] in Hn; [|discriminate].
    rewrite Hn. apply IH, Hbad.
Qed.

Lemma fold_max_spec (ns : list Z) : forall hi,
  let m := fold_left (fun acc n => Z.max n acc) ns hi in
  hi <= m /\ Forall (fun n => n <= m) ns /\ (m = hi \/ In m ns).
Proof.
  induction ns as [|n ns IH]; intros hi; cbn [fold_left].
  - repeat split; [lia|constructor|left; reflexivity].
  - destruct (IH (Z.max n hi)) as (Hle & Hall & Hin). repeat split.
    + lia.
    + constructor; [lia|exact Hall].
    + destruct Hin as [Hm|Hin]; [|right; right; exact Hin].
      destruct (Z.max_spec n hi) as [[_ Hx]|[_ Hx]];
        [left; exact (eq_trans Hm Hx)|right; left; symmetry; exact (eq_trans Hm Hx)].
Qed.

Lemma fold_min_spec (ns : list Z) : forall lo,
  let m := fold_left (fun acc n => Z.min n acc) ns lo in
  m <= lo /\ Forall (fun n => m <= n) ns /\ (m = lo \/ In m ns).
Proof.
  induction ns as [|n ns IH]; intros lo; cbn [fold_left].
  - repeat split; [lia|constructor|left; reflexivity].
  - destruct (IH (Z.min n lo)) as (Hle & Hall & Hin). repeat split.
    + lia.
    + constructor; [lia|exact Hall].
    + destruct Hin as [Hm|Hin]; [|right; right; exact Hin].
      destruct (Z.min_spec n lo) as [[_ Hx]|[_ Hx]];
        [right; left; symmetry; exact (eq_trans Hm Hx)|left; exact (eq_trans Hm Hx)].
Qed.

(** For numbers within the two sentinels the scan picks the largest and
    the smallest of them. *)
Lemma newest_oldest_spec (ns : list Z) :
  ns <> [] -> Forall (fun n => -1 <= n <= 1000000000) ns ->
  In (newest ns) ns /\ In (oldest ns) ns
  /\ Forall (fun n => oldest ns <= n <= newest ns) ns.
Proof.
  intros Hne Hrange. unfold newest, oldest.
  destruct (fold_max_spec ns (-1)) as (Hhi & Hmax & Hinmax).
  destruct (fold_min_spec ns 1000000000) as (Hlo & Hmin & Hinmin).
  cbv zeta in *.
  set (hi := fold_left (fun acc n => Z.max n acc) ns (-1)) in *.
  set (lo := fold_left (fun acc n => Z.min n acc) ns 1000000000) in *.
  destruct ns as [|n0 ns']; [congruence|].
  assert (Hn0 : -1 <= n0 <= 1000000000) by (inversion Hrange; assumption).
  assert (Hn0hi : n0 <= hi) by (inversion Hmax; assumption).
  assert (Hn0lo : lo <= n0) by (inversion Hmin; assumption).
  repeat split.
  - destruct Hinmax as [Heq|Hin]; [|exact Hin].
    left. lia.
  - destruct Hinmin as [Heq|Hin]; [|exact Hin].
    left. lia.
  - apply List.Forall_forall. intros n Hn.
    pose proof (proj1 (List.Forall_forall _ _) Hmax n Hn).
    pose proof (proj1 (List.Forall_forall _ _) Hmin n Hn). simpl in *. lia.
Qed.

Lemma show_last_and_first_run (w : World) (st : State) (o c : string) (ns : list Z) :
  fs st !! index_file_path w = Some (File o c) ->
  Forall2 (fun line n => suffix_number line = Some n)
          (Py.keep_lines (Py.universal_newlines c)) ns ->
  show_last_and_first_binlog w st
  = (Ok (log_path w (binlog_name (newest ns)), log_path w (binlog_name (oldest ns))), st).
Proof.
  intros Hfile Hlines. unfold show_last_and_first_binlog, read_text.
  unfold mbind, M_bind, get_state, lift, mret, M_ret. simpl. rewrite Hfile. simpl.
  rewrite (scan_index_numbers _ ns Hlines). reflexivity.
Qed.

Lemma copy_binlog_run (w : World) (manifest : list string) (st : State) :
  import_ready w (fs st) manifest = true ->
  exists st',
    copy_binlog_to_new_path w manifest st = (Ok tt, st')
    /\ fs st' !! index_file_path w
       = Some (File "mysql" (index_text (map (log_path w) manifest))).
Proof.
  intros Hready. unfold import_ready in Hready.
  apply andb_prop in Hready as [Hidx Hsegs].
  assert (Hopen : exists st0 o,
             open_w (index_file_path w) st = (Ok tt, st0)
             /\ fs st0 = <[index_file_path w := File o ""]> (fs st)).
  { unfold open_w, emit. run_monad.
    destruct (fs st !! index_file_path w) as [[?|o c]|]; try discriminate;
      eexists _, _; split; reflexivity. }
  destruct Hopen as (st0 & o & Hopen & Hfs0).
  destruct (import_segments_run w manifest st0 o "") as (st1 & Hloop & Hidx1).
  { rewrite Hfs0. apply lookup_insert_eq. }
  { rewrite Hfs0. apply forallb_forall. intros b Hin.
    pose proof (proj1 (forallb_forall _ _) Hsegs b Hin) as Hb.
    unfold segment_ready in *.
    apply andb_prop in Hb as [[[Hs Hd]%andb_prop Hne]%andb_prop Hni].
    rewrite Hne, Hni, insert_file_is_file, insert_file_not_dir by assumption.
    reflexivity. }
  simpl in Hidx1.
  eexists. split.
  - unfold copy_binlog_to_new_path, mbind, M_bind.
    rewrite Hopen, Hloop. unfold shutil_chown, path_exists, emit. run_monad.
    rewrite Hidx1. reflexivity.
  - simpl. rewrite lookup_alter_eq, Hidx1. reflexivity.
Qed.

Lemma fmt_06d_chars (n : Z) : Py.forall_chars sign_or_digit (Py.fmt_06d n) = true.
Proof.
  assert (Hd : forall s, Py.forall_chars Py.is_digit s = true ->
                         Py.forall_chars sign_or_digit s = true).
  { intros s. apply PyFacts.forall_chars_weaken. intros c Hc.
    unfold sign_or_digit. rewrite Hc. reflexivity. }
  unfold Py.fmt_06d. destruct (Z.ltb_spec n 0).
  - destruct (str_of_Z_nonneg (- n) ltac:(lia)) as (d & _ & -> & _).
    simpl. apply Hd, digits_zfill, digits_of_uint.
  - destruct (str_of_Z_nonneg n ltac:(lia)) as (d & _ & -> & _).
    apply Hd, digits_zfill, digits_of_uint.
Qed.

Lemma sign_or_digit_plain (c : ascii) :
  sign_or_digit c = true ->
  negb (Py.is_linebreak c) = true /\ Ascii.eqb c "." = false.
Proof. destruct c as [[] [] [] [] [] [] [] []]; vm_compute; intuition congruence. Qed.

Lemma binlog_name_single_line (n : Z) : single_line (binlog_name n).
Proof.
  unfold single_line, binlog_name. rewrite PyFacts.forall_chars_app.
  rewrite (PyFacts.forall_chars_weaken sign_or_digit _ (Py.fmt_06d n));
    [reflexivity| |apply fmt_06d_chars].
  intros c Hc. apply sign_or_digit_plain, Hc.
Qed.

Lemma binlog_path_suffix (dir : string) (n : Z) :
  suffix_number (Py.path_join dir (binlog_name n) ++ String Py.LF "") = Some n.
Proof.
  assert (Hu : exists u, Py.path_join dir (binlog_name n) ++ String Py.LF ""
                         = u ++ String "." (Py.fmt_06d n ++ String Py.LF "")).
  { unfold Py.path_join, binlog_name. simpl.
    destruct (Py.is_empty dir || Py.ends_with_slash dir).
    - exists (dir ++ "mysql_bin"). rewrite !PyFacts.app_assoc_s. reflexivity.
    - exists (dir ++ "/mysql_bin"). rewrite !PyFacts.app_assoc_s. reflexivity. }
  destruct Hu as [u ->]. unfold suffix_number. rewrite last_field.
  - cbn [mbind option_bind]. apply int_fmt_06d. reflexivity.
  - rewrite PyFacts.has_char_app. simpl. rewrite orb_false_r.
    apply (PyFacts.has_char_forall (fun c => negb (Ascii.eqb c "."))); [|reflexivity].
    eapply PyFacts.forall_chars_weaken; [|apply fmt_06d_chars].
    intros c Hc. rewrite (proj2 (sign_or_digit_plain c Hc)). reflexivity.
Qed.


(** X20. On an empty index file [show_last_and_first_binlog] returns the
    names built from its two sentinels, [mysql_bin.-00001] and
    [mysql_bin.1000000000], and raises nothing. *)
Theorem show_on_empty_index (w : World) (st : State) (o : string) :
  fs st !! index_file_path w = Some (File o "") ->
  show_last_and_first_binlog w st
  = (Ok (Py.path_join (volume_data (context w) "log") "mysql_bin.-00001",
         Py.path_join (volume_data (context w) "log") "mysql_bin.1000000000"), st).
Proof.
  intros Hfile.
  exact (show_last_and_first_run w st o "" [] Hfile (List.Forall2_nil _)).
Qed.

(** X21. A line of the index file whose text after the last dot is not
    an integer makes [show_last_and_first_binlog] raise [ValueError],
    whatever the lines after it hold. *)
Theorem show_rejects_unnumbered_line
    (w : World) (st : State) (o c : string)
    (good : list string) (ns : list Z) (bad : string) (rest : list string) :
  fs st !! index_file_path w = Some (File o c) ->
  Py.keep_lines (Py.universal_newlines c) = (good ++ bad :: rest)%list ->
  Forall2 (fun line n => suffix_number line = Some n) good ns ->
  suffix_number bad = None ->
  exists s, show_last_and_first_binlog w st = (Raise (ValueError s), st).
Proof.
  intros Hfile Hlines Hgood Hbad.
  destruct (scan_index_bad_line good ns bad rest Hgood Hbad (-1) 1000000000)
    as [s Hs].
  exists s. unfold show_last_and_first_binlog, read_text.
  unfold mbind, M_bind, get_state, lift, mret, M_ret. simpl. rewrite Hfile. simpl.
  rewrite Hlines, Hs. reflexivity.
Qed.

(** X22. After [copy_binlog_to_new_path] has imported the segments
    numbered [ns], [show_last_and_first_binlog] reads the index file it
    wrote and returns the paths of the segments with the largest and the
    smallest number. *)
Theorem copy_then_show_picks_extremes (w : World) (ns : list Z) (st : State) :
  import_ready w (fs st) (map binlog_name ns) = true ->
  single_line (volume_data (context w) "log") ->
  ns <> [] ->
  Forall (fun n => -1 <= n <= 1000000000) ns ->
  exists hi lo,
    fst ((copy_binlog_to_new_path w (map binlog_name ns)
          ≫= fun _ => show_last_and_first_binlog w) st)
    = Ok (log_path w (binlog_name hi), log_path w (binlog_name lo))
    /\ In hi ns /\ In lo ns /\ Forall (fun n => lo <= n <= hi) ns.
Proof.
  intros Hready Hdir Hne Hrange.
  destruct (copy_binlog_run w _ st Hready) as (st' & Hcopy & Hidx).
  assert (Hpaths : Forall single_line (map (log_path w) (map binlog_name ns))).
  { rewrite map_map. apply List.Forall_map, List.Forall_forall. intros n _.
    apply single_line_join; [exact Hdir|apply binlog_name_single_line]. }
  destruct (index_text_lines _ Hpaths) as [Hun Hlines].
  assert (Hnums : Forall2 (fun line n => suffix_number line = Some n)
            (Py.keep_lines (Py.universal_newlines
               (index_text (map (log_path w) (map binlog_name ns))))) ns).
  { rewrite Hun, Hlines, !map_map. clear. induction ns as [|n ns IH]; constructor.
    - apply binlog_path_suffix.
    - exact IH. }
  exists (newest ns), (oldest ns). split; [|apply newest_oldest_spec; assumption].
  unfold mbind, M_bind. rewrite Hcopy.
  rewrite (show_last_and_first_run w st' "mysql" _ ns Hidx Hnums). reflexivity.
Qed.

(** ** Output of the index tool without a pair *)

Lemma has_char_lstrip (x : ascii) (p : ascii -> bool) (s : string) :
  Py.has_char x s = false -> Py.has_char x (Py.lstrip_by p s) = false.
Proof.
  induction s as [|c s IH]; [reflexivity|]. cbn [Py.lstrip_by].
  destruct (p c); [|auto]. cbn [Py.has_char]. intros [_ H]%orb_false_elim. auto.
Qed.

Lemma has_char_rstrip (x : ascii) (p : ascii -> bool) (s : string) :
  Py.has_char x s = false -> Py.has_char x (Py.rstrip_by p s) = false.
Proof.
  induction s as [|c s IH]; [reflexivity|]. rewrite PyFacts.rstrip_cons.
  cbn [Py.has_char]. intros [Hc H]%orb_false_elim.
  destruct (p c && _); [reflexivity|]. cbn [Py.has_char]. rewrite Hc. auto.
Qed.

Lemma has_char_remove (x a : ascii) (s : string) :
  Py.has_char x s = false -> Py.has_char x (Py.remove_char a s) = false.
Proof.
  induction s as [|c s IH]; [reflexivity|]. cbn [Py.has_char Py.remove_char].
  intros [Hc H]%orb_false_elim. destruct (Ascii.eqb c a); [auto|].
  cbn [Py.has_char]. rewrite Hc. auto.
Qed.

Lemma parse_index_info_needs_comma (index_info : string) :
  Py.has_char "," index_info = false ->
  parse_index_info index_info = Raise IndexError.
Proof.
  intros H. unfold parse_index_info.
  rewrite PyFacts.split_no_sep; [reflexivity|].
  apply has_char_remove. unfold Py.strip_chars, Py.strip, Py.strip_by.
  repeat (apply has_char_rstrip || apply has_char_lstrip). exact H.
Qed.

(** X23. Output of the index tool that holds no comma, the empty output
    included, makes [xdb_show_binlog_index] raise [IndexError], whatever
    the exit status of the tool; the file system is as the tool left
    it. *)
Theorem xdb_show_binlog_index_without_pair
    (w : World) (binlog_path : string) (st : State) :
  let cmd := Argv [mysqlbinlogtailor (context w); "--show-index-info"; binlog_path] in
  let run := xdb_show_binlog_index w binlog_path st in
  executable w cmd = true ->
  Py.has_char "," (stdout (run_process w cmd (fs st))) = false ->
  fst run = Raise IndexError
  /\ fs (snd run) = fs_after (run_process w cmd (fs st))
  /\ history (snd run)
     = (history st ++ [EvRun cmd (exit_code (run_process w cmd (fs st)))])%list.
Proof.
  intros cmd run Hx Hout. subst run.
  unfold xdb_show_binlog_index, popen_run. fold cmd.
  rewrite Hx. unfold emit. run_monad.
  rewrite (parse_index_info_needs_comma _ Hout). repeat split; reflexivity.
Qed.

(** ** The monitor *)

Lemma poll_state_iter_fields (port : string) (k : nat) (st : State) :
  ticks (Nat.iter k (poll_state port) st) = (ticks st + k)%nat
  /\ queries (Nat.iter k (poll_state port) st) = (queries st + k)%nat
  /\ fs (Nat.iter k (poll_state port) st) = fs st
  /\ live (Nat.iter k (poll_state port) st) = live st.
Proof.
  induction k as [|k (Ht & Hq & Hf & Hl)]; cbn [Nat.iter].
  - rewrite !Nat.add_0_r. auto.
  - simpl. rewrite Ht, Hq, Hf, Hl. repeat split; lia.
Qed.

Lemma wait_loop_ready_at (w : World) (port e : string) (deadline : Z) (n : nat) :
  forall (fuel : nat) (st : State),
  (forall k, (k < n)%nat ->
     clock w (ticks st + k) < deadline
     /\ poll_outcome w e (queries st + k) <> Ok true) ->
  clock w (ticks st + n) < deadline ->
  poll_outcome w e (queries st + n) = Ok true ->
  (n < fuel)%nat ->
  wait_loop w fuel deadline port e st
  = (Ok tt, Nat.iter (S n) (poll_state port) st).
Proof.
  induction n as [|n IH]; intros fuel st Hpolls Hnow Hready Hfuel;
    (destruct fuel as [|fuel]; [lia|]).
  - rewrite !Nat.add_0_r in *.
    exact (monitor_returns_when_ready w fuel deadline port e st Hnow Hready).
  - destruct (Hpolls 0%nat ltac:(lia)) as [Hc Hp]. rewrite !Nat.add_0_r in *.
    rewrite (monitor_polls_again w fuel deadline port e st Hc Hp).
    rewrite (IH fuel (poll_state port st)).
    + cbn [Nat.iter]. rewrite <- !Nat.iter_succ_r. reflexivity.
    + intros k Hk. destruct (Hpolls (S k) ltac:(lia)) as [Hc' Hp'].
      simpl. rewrite <- !Nat.add_succ_r. auto.
    + simpl. rewrite <- Nat.add_succ_r. exact Hnow.
    + simpl. rewrite <- Nat.add_succ_r. exact Hready.
    + lia.
Qed.

(** X15. When the first [n] polls, each before the deadline, are not
    ready and poll [n + 1], still before the deadline, is ready, the
    monitor returns after exactly [n + 1] rounds of clock reading, sleep
    and query, with the file system and the children untouched. *)
Theorem monitor_returns_at_first_ready_poll
    (w : World) (port e : string) (st : State) (n fuel : nat) :
  let deadline := clock w (ticks st) + 48 * 60 * 60 in
  let run := wait_binlog_apply_ready w fuel port e st in
  (forall k, (k < n)%nat ->
     clock w (S (ticks st) + k) < deadline
     /\ poll_outcome w e (queries st + k) <> Ok true) ->
  clock w (S (ticks st) + n) < deadline ->
  poll_outcome w e (queries st + n) = Ok true ->
  (n < fuel)%nat ->
  run = (Ok tt, Nat.iter (S n) (poll_state port) (tick st))
  /\ queries (snd run) = (queries st + S n)%nat
  /\ fs (snd run) = fs st /\ live (snd run) = live st.
Proof.
  intros deadline run Hpolls Hnow Hready Hfuel.
  assert (Hrun : run = (Ok tt, Nat.iter (S n) (poll_state port) (tick st))).
  { subst run. unfold wait_binlog_apply_ready, time_time. run_monad.
    exact (wait_loop_ready_at w port e deadline n fuel (tick st)
             Hpolls Hnow Hready Hfuel). }
  rewrite Hrun. split; [reflexivity|]. cbn [snd].
  destruct (poll_state_iter_fields port (S n) (tick st)) as (_ & Hq & Hf & Hl).
  rewrite Hq, Hf, Hl. auto.
Qed.

(** Whatever the replies and the clock, the loop ends in one of three
    ways, and touches neither the file system nor the live children. *)
Lemma wait_loop_outcomes (w : World) (port e : string) (deadline : Z) (fuel : nat) :
  forall st,
  let run := wait_loop w fuel deadline port e st in
  (fst run = Ok tt \/ fst run = Raise timeout_error \/ fst run = OutOfFuel)
  /\ fs (snd run) = fs st /\ live (snd run) = live st.
Proof.
  induction fuel as [|fuel IH]; intros st run; subst run.
  - simpl. auto.
  - rewrite wait_loop_unfold.
    destruct (clock w (ticks st) <? deadline); [|simpl; auto].
    pose proof (poll_outcome_fuel w e (queries st)) as Hf.
    destruct (IH (poll_state port st)) as (Hres & Hfs & Hlive).
    destruct (poll_outcome w e (queries st)) as [[|]| |]; try congruence;
      simpl; auto.
Qed.

Lemma monitor_outcomes (w : World) (fuel : nat) (port e : string) (st : State) :
  let run := wait_binlog_apply_ready w fuel port e st in
  (fst run = Ok tt \/ fst run = Raise timeout_error \/ fst run = OutOfFuel)
  /\ fs (snd run) = fs st /\ live (snd run) = live st.
Proof.
  intros run. subst run. unfold wait_binlog_apply_ready, time_time. run_monad.
  exact (wait_loop_outcomes w port e _ fuel (tick st)).
Qed.

(** X16. Whatever the replies of the engine and the readings of the
    clock, the monitor ends by returning or by raising the timeout error
    (or the model runs out of fuel): no exception of a poll comes out of
    it. It touches neither the file system nor the children. *)
Theorem monitor_raises_nothing_but_timeout
    (w : World) (fuel : nat) (port e : string) (st : State) :
  let run := wait_binlog_apply_ready w fuel port e st in
  (fst run = Ok tt \/ fst run = Raise timeout_error \/ fst run = OutOfFuel)
  /\ fs (snd run) = fs st /\ live (snd run) = live st.
Proof.
  intros run. subst run. unfold wait_binlog_apply_ready, time_time. run_monad.
  exact (wait_loop_outcomes w port e _ fuel (tick st)).
Qed.

(** ** Replies that are not rows *)



(** ** Rendering the rows and reading them back *)

Lemma has_char_join (x : ascii) (sep : string) (l : list string) :
  Py.has_char x sep = false ->
  Forall (fun f => Py.has_char x f = false) l ->
  Py.has_char x (Py.join sep l) = false.
Proof.
  intros Hsep Hl. induction Hl as [|f l Hf Hl IH]; [reflexivity|].
  destruct l as [|g l]; [exact Hf|].
  change (Py.join sep (f :: g :: l)) with (f ++ sep ++ Py.join sep (g :: l)).
  rewrite !PyFacts.has_char_app, Hf, Hsep, IH. reflexivity.
Qed.

(** X18. The text [execute_mysqlcmd] makes of the fetched rows is read
    back by the splitting of [check_binlog_apply_index_status] as the
    same rows and items, when there is a row, no row is empty and no item
    holds a tab or a newline. *)
Theorem rendered_rows_read_back (rows : list (list string)) :
  rows <> [] ->
  Forall (fun row => row <> [] /\ Forall clean_cell row) rows ->
  map (Py.split Py.TAB) (Py.split Py.LF (render_rows rows)) = rows.
Proof.
  intros Hne Hrows. rewrite rendered_lines.
  - rewrite map_map. induction Hrows as [|row rows [Hrow Hcells] _ IH];
      [reflexivity|]. cbn [map]. f_equal.
    + apply PyFacts.split_join; [exact Hrow|].
      eapply List.Forall_impl; [|exact Hcells]. intros cell [H _]. exact H.
    + destruct rows as [|r rows]; [reflexivity|]. apply IH. discriminate.
  - exact Hne.
  - unfold one_line_each. eapply List.Forall_impl; [|exact Hrows].
    intros row [_ Hcells]. apply has_char_join; [reflexivity|].
    eapply List.Forall_impl; [|exact Hcells]. intros cell [_ H]. exact H.
Qed.

(** ** Errors of [start] before the first effect *)

(** X1. Whatever the role of the node, [start] on a descriptor path that
    does not exist raises [FileNotFoundError], and on a descriptor that
    lacks a request field raises [KeyError] for the first one missing in
    the order the code reads them; in both cases nothing has been
    done. *)
Theorem start_descriptor_errors (w : World) (fuel : nat) (path : string) (st : State) :
  (fs st !! path = None ->
   start w fuel path st = (Raise (FileNotFoundError path), st))
  /\ (forall params key, descriptor_loads w path st params ->
        first_missing_field params = Some key ->
        start w fuel path st = (Raise (KeyError key), st)).
Proof.
  split.
  - intros H. unfold start, read_text. run_monad. rewrite H. reflexivity.
  - intros params key (o & c & H & Hj) Hmiss.
    unfold start, read_text, getitem. run_monad. rewrite H. simpl. rewrite Hj. simpl.
    unfold first_missing_field, request_fields in Hmiss. cbn [List.find] in Hmiss.
    repeat match type of Hmiss with
    | context [params !! ?k] =>
        destruct (params !! k); simpl;
        [|injection Hmiss as <-; reflexivity]
    end.
    discriminate.
Qed.

(** X2. On a restoring node, a storage name that is not a string raises
    [TypeError] and one that names no known storage raises [KeyError],
    before any directory is made or anything is downloaded: the state is
    as it was. *)
Theorem start_rejects_storage_before_effects
    (w : World) (fuel : nat) (path : string) (st : State)
    (params : gmap string pyval) (storage : pyval) :
  restore_role (node_role (context w)) = true ->
  descriptor_loads w path st params ->
  has_request_fields params ->
  params !! "storageName" = Some storage ->
  match storage with
  | PStr name => known_storage w name = false
  | _ => True
  end ->
  exists e, start w fuel path st = (Raise e, st)
            /\ match storage with
               | PStr _ => exists key, e = KeyError key
               | _ => e = TypeError
               end.
Proof.
  intros Hrole (o & c & H & Hj) Hfields Hname Hstorage.
  unfold restore_role in Hrole.
  assert (Hgate : negb (role_eqb (node_role (context w)) Candidate)
                  && negb (role_eqb (node_role (context w)) Learner) = false).
  { destruct (role_eqb _ Candidate), (role_eqb _ Learner); simpl in *; congruence. }
  unfold has_request_fields, request_fields in Hfields.
  repeat match goal with
  | Hf : Forall _ (_ :: _) |- _ => apply Forall_cons in Hf as [[? ?] Hf]
  end.
  unfold start, read_text, getitem. run_monad. rewrite H. simpl. rewrite Hj. simpl.
  rewrite Hname in *.
  repeat match goal with
  | Hk : params !! ?k = Some _ |- _ => rewrite Hk; clear Hk; simpl
  end.
  rewrite Hgate. simpl.
  destruct storage as [|n|name|shown]; simpl; eauto.
  rewrite Hstorage. simpl. eauto.
Qed.

Lemma bind_ok {A B} (m : M A) (f : A -> M B) (st st1 : State) (a : A) :
  m st = (Ok a, st1) -> (m ≫= f) st = f a st1.
Proof. intros H. unfold mbind, M_bind. rewrite H. reflexivity. Qed.

Lemma bind_raise {A B} (m : M A) (f : A -> M B) (st st1 : State) (e : exn) :
  m st = (Raise e, st1) -> (m ≫= f) st = (Raise e, st1).
Proof. intros H. unfold mbind, M_bind. rewrite H. reflexivity. Qed.

(** ** Fetching the log segments *)

Lemma download_run (w : World) (remote local data : string) (st : State) :
  remote_object w remote = Some data ->
  download_to_file w remote local st
  = (Ok tt, log_event (EvDownload remote local)
                      (set_fs (insert local (File "root" data)) st)).
Proof. intros H. unfold download_to_file. rewrite H. reflexivity. Qed.

Lemma fetch_run (w : World) (dir b data : string) (st : State) :
  remote_object w (Py.path_join dir b) = Some data ->
  fetch_segment w dir b st
  = (Ok tt, log_event (EvDownload (Py.path_join dir b) (staged_path b))
                      (set_fs (insert (staged_path b) (File "root" data)) st)).
Proof. apply download_run. Qed.


Lemma fetch_stops_at_missing (w : World) (dir : string)
                             (before : list string) (missing : string)
                             (after : list string) :
  forall st,
  Forall (fun b => is_Some (remote_object w (Py.path_join dir b))) before ->
  remote_object w (Py.path_join dir missing) = None ->
  fst (for_each (before ++ missing :: after) (fetch_segment w dir) st)
  = Raise (TransferError (Py.path_join dir missing)).
Proof.
  induction before as [|b before IH]; intros st Hall Hmiss.
  - cbn [app for_each].
    assert (Hf : fetch_segment w dir missing st
                 = (Raise (TransferError (Py.path_join dir missing)), st)).
    { unfold fetch_segment, download_to_file. rewrite Hmiss. reflexivity. }
    rewrite (bind_raise _ _ _ _ _ Hf). reflexivity.
  - inversion Hall as [|? ? [data Hb] Hrest]; subst.
    cbn [app for_each].
    rewrite (bind_ok _ _ _ _ _ (fetch_run w dir b data st Hb)).
    apply IH; assumption.
Qed.

Lemma read_text_run (p o c : string) (st : State) :
  fs st !! p = Some (File o c) ->
  read_text p st = (Ok (Py.universal_newlines c), st).
Proof. intros H. unfold read_text. run_monad. rewrite H. reflexivity. Qed.

(** [download_binlogbackup_file] once the manifest has arrived. *)
Lemma download_binlogbackup_file_unfold (w : World) (dir text : string) (st : State) :
  remote_object w (manifest_remote dir) = Some text ->
  download_binlogbackup_file w dir st
  = (for_each (Py.splitlines (Py.universal_newlines text)) (fetch_segment w dir)
     ≫= fun _ => mret (Py.splitlines (Py.universal_newlines text)))
      (log_event (EvDownload (manifest_remote dir)
                             (Py.path_join RESTORE_TEMP_DIR "binlog_list"))
                 (set_fs (insert (Py.path_join RESTORE_TEMP_DIR "binlog_list")
                                 (File "root" text)) st)).
Proof.
  intros Hman. unfold download_binlogbackup_file. fold (manifest_remote dir).
  rewrite (bind_ok _ _ _ _ _ (download_run w _ _ text st Hman)).
  erewrite bind_ok; [|apply (read_text_run _ "root" text); simpl; apply lookup_insert_eq].
  reflexivity.
Qed.


(** X9. [download_binlogbackup_file] raises the error of the transfer
    client for the manifest when that is missing, with nothing done, and
    otherwise for the first segment of the manifest that is missing. *)
Theorem download_binlogbackup_file_fails_on_missing_object
    (w : World) (dir : string) (st : State) :
  (remote_object w (manifest_remote dir) = None ->
   download_binlogbackup_file w dir st
   = (Raise (TransferError (manifest_remote dir)), st))
  /\ (forall text before missing after,
        remote_object w (manifest_remote dir) = Some text ->
        Py.splitlines (Py.universal_newlines text) = (before ++ missing :: after)%list ->
        Forall (fun b => is_Some (remote_object w (Py.path_join dir b))) before ->
        remote_object w (Py.path_join dir missing) = None ->
        fst (download_binlogbackup_file w dir st)
        = Raise (TransferError (Py.path_join dir missing))).
Proof.
  split.
  - intros Hman. unfold download_binlogbackup_file. fold (manifest_remote dir).
    apply bind_raise. unfold download_to_file. rewrite Hman. reflexivity.
  - intros text before missing after Hman Hnames Hall Hmiss.
    rewrite (download_binlogbackup_file_unfold w dir text st Hman), Hnames.
    match goal with
    | |- context [(for_each _ (fetch_segment w dir) ≫= _) ?s] =>
        pose proof (fetch_stops_at_missing w dir before missing after s Hall Hmiss) as Hrun
    end.
    unfold mbind, M_bind.
    destruct (for_each _ _ _) as [r s'] eqn:Hfe. simpl in Hrun. subst r. reflexivity.
Qed.

(** ** The working directories *)

Lemma lookup_ensure_dirs (l : list string) : forall (m : filesystem) (p : string),
  foldl ensure_dir m l !! p
  = match m !! p with
    | Some n => Some n
    | None => if decide (p ∈ l) then Some (Dir "root") else None
    end.
Proof.
  induction l as [|q l IH]; intros m p; cbn [foldl].
  - destruct (m !! p); [reflexivity|]. destruct (decide (p ∈ [])) as [H|]; [|reflexivity].
    inversion H.
  - rewrite IH. unfold ensure_dir. destruct (m !! q) eqn:Hq.
    + destruct (m !! p) eqn:Hp; [reflexivity|].
      destruct (decide (p ∈ l)), (decide (p ∈ q :: l)) as [Hin|Hnin];
        try reflexivity.
      * exfalso. apply Hnin. right. assumption.
      * apply elem_of_cons in Hin as [->|]; [congruence|contradiction].
    + rewrite lookup_insert. destruct (decide (q = p)) as [->|Hne].
      * rewrite Hq. destruct (decide (p ∈ p :: l)) as [|Hnin]; [reflexivity|].
        exfalso. apply Hnin. left.
      * destruct (m !! p); [reflexivity|].
        destruct (decide (p ∈ l)), (decide (p ∈ q :: l)) as [Hin|Hnin];
          try reflexivity.
        -- exfalso. apply Hnin. right. assumption.
        -- apply elem_of_cons in Hin as [->|]; [congruence|contradiction].
Qed.

Lemma set_owner_twice (o : string) (n : node) :
  set_owner o (set_owner o n) = set_owner o n.
Proof. destruct n; reflexivity. Qed.

Lemma lookup_give_to_mysql (l : list string) : forall (m : filesystem) (p : string),
  foldl give_to_mysql m l !! p
  = if decide (p ∈ l) then set_owner "mysql" <$> m !! p else m !! p.
Proof.
  induction l as [|q l IH]; intros m p; cbn [foldl].
  - destruct (decide (p ∈ [])) as [H|]; [inversion H|reflexivity].
  - rewrite IH. unfold give_to_mysql. rewrite lookup_alter.
    destruct (decide (q = p)) as [->|Hne].
    + destruct (decide (p ∈ p :: l)) as [|Hnin]; [|exfalso; apply Hnin; left].
      destruct (decide (p ∈ l)); [|reflexivity].
      destruct (m !! p); simpl; [rewrite set_owner_twice|]; reflexivity.
    + destruct (decide (p ∈ l)), (decide (p ∈ q :: l)) as [Hin|Hnin];
        try reflexivity.
      * exfalso. apply Hnin. right. assumption.
      * apply elem_of_cons in Hin as [->|]; [congruence|contradiction].
Qed.

Lemma lookup_after_mkdir_needed (w : World) (m : filesystem) (p : string) :
  after_mkdir_needed w m !! p
  = let made := match m !! p with
                | Some n => Some n
                | None => if decide (p ∈ RESTORE_TEMP_DIR :: volume_dirs w)
                          then Some (Dir "root") else None
                end in
    if decide (p ∈ volume_dirs w) then set_owner "mysql" <$> made else made.
Proof.
  unfold after_mkdir_needed. rewrite lookup_give_to_mysql, lookup_ensure_dirs.
  reflexivity.
Qed.

Lemma ensure_run (p : string) (st : State) :
  exists st', ensure p st = (Ok tt, st')
              /\ fs st' = ensure_dir (fs st) p /\ live st' = live st.
Proof.
  unfold ensure, os_mkdir, path_exists, ensure_dir, emit. run_monad.
  destruct (fs st !! p) eqn:Hp; simpl; [eauto|]. rewrite Hp. simpl. eauto.
Qed.

Lemma chown_run (p o : string) (st : State) :
  is_Some (fs st !! p) ->
  exists st', shutil_chown p o st = (Ok tt, st')
              /\ fs st' = alter (set_owner o) p (fs st) /\ live st' = live st.
Proof.
  intros [n Hn]. unfold shutil_chown, path_exists, emit. run_monad.
  rewrite Hn. simpl. eauto.
Qed.

Lemma ensure_dirs_exist (l : list string) (m : filesystem) (p : string) :
  p ∈ l -> is_Some (foldl ensure_dir m l !! p).
Proof.
  intros Hin. rewrite lookup_ensure_dirs. destruct (m !! p); [eauto|].
  destruct (decide (p ∈ l)); [eauto|contradiction].
Qed.

Lemma give_keeps_existing (l : list string) (m : filesystem) (p : string) :
  is_Some (m !! p) -> is_Some (foldl give_to_mysql m l !! p).
Proof.
  intros [n Hn]. rewrite lookup_give_to_mysql, Hn.
  destruct (decide (p ∈ l)); simpl; eauto.
Qed.

Lemma mkdir_needed_run (w : World) (st : State) :
  exists st', mkdir_needed w st = (Ok tt, st')
              /\ fs st' = after_mkdir_needed w (fs st) /\ live st' = live st.
Proof.
  unfold mkdir_needed. cbv zeta.
  change (fun p : string => e ← path_exists p; if e : bool then mret tt else os_mkdir p)
    with ensure.
  destruct (ensure_run RESTORE_TEMP_DIR st) as (e0 & Hr0 & Hf0 & Hl0).
  rewrite (bind_ok _ _ _ _ _ Hr0).
  destruct (ensure_run (volume_data (context w) "data") e0) as (e1 & Hr1 & Hf1 & Hl1).
  rewrite (bind_ok _ _ _ _ _ Hr1).
  destruct (ensure_run (volume_data (context w) "log") e1) as (e2 & Hr2 & Hf2 & Hl2).
  rewrite (bind_ok _ _ _ _ _ Hr2).
  destruct (ensure_run (volume_data (context w) "tmp") e2) as (e3 & Hr3 & Hf3 & Hl3).
  rewrite (bind_ok _ _ _ _ _ Hr3).
  destruct (ensure_run (volume_data (context w) "run") e3) as (s3 & Hr4 & Hf4 & Hl4).
  rewrite (bind_ok _ _ _ _ _ Hr4).
  set (made := foldl ensure_dir (fs st) (RESTORE_TEMP_DIR :: volume_dirs w)).
  assert (Hmade : fs s3 = made).
  { subst made. unfold volume_dirs. cbn [map foldl]. congruence. }
  assert (Hex : forall p, p ∈ volume_dirs w -> is_Some (made !! p)).
  { intros p Hp. apply ensure_dirs_exist. right. exact Hp. }
  assert (Hd : volume_data (context w) "data" ∈ volume_dirs w) by (unfold volume_dirs; cbn [map]; left).
  assert (Hlg : volume_data (context w) "log" ∈ volume_dirs w) by (unfold volume_dirs; cbn [map]; right; left).
  assert (Ht : volume_data (context w) "tmp" ∈ volume_dirs w) by (unfold volume_dirs; cbn [map]; right; right; left).
  assert (Hrn : volume_data (context w) "run" ∈ volume_dirs w)
    by (unfold volume_dirs; cbn [map]; right; right; right; left).
  destruct (chown_run (volume_data (context w) "data") "mysql" s3)
    as (c1 & Hc1 & Hfc1 & Hlc1); [rewrite Hmade; auto|].
  rewrite (bind_ok _ _ _ _ _ Hc1).
  destruct (chown_run (volume_data (context w) "log") "mysql" c1)
    as (c2 & Hc2 & Hfc2 & Hlc2).
  { rewrite Hfc1, Hmade. apply (give_keeps_existing [_]). auto. }
  rewrite (bind_ok _ _ _ _ _ Hc2).
  destruct (chown_run (volume_data (context w) "tmp") "mysql" c2)
    as (c3 & Hc3 & Hfc3 & Hlc3).
  { rewrite Hfc2, Hfc1, Hmade. apply (give_keeps_existing [_; _]). auto. }
  rewrite (bind_ok _ _ _ _ _ Hc3).
  destruct (chown_run (volume_data (context w) "run") "mysql" c3)
    as (c4 & Hc4 & Hfc4 & Hlc4).
  { rewrite Hfc3, Hfc2, Hfc1, Hmade. apply (give_keeps_existing [_; _; _]). auto. }
  exists c4. split; [exact Hc4|]. split; [|congruence].
  rewrite Hfc4, Hfc3, Hfc2, Hfc1, Hmade. reflexivity.
Qed.

(** X6. [mkdir_needed] returns normally from any file system (parent
    directories being taken to exist): afterwards the restore directory
    exists, the four volume directories exist and belong to [mysql],
    every node that was there is still there with at most its owner
    changed, and no other path has been touched. *)
Theorem mkdir_needed_leaves_owned_dirs (w : World) (st : State) :
  let run := mkdir_needed w st in
  fst run = Ok tt
  /\ is_Some (fs (snd run) !! RESTORE_TEMP_DIR)
  /\ Forall (fun p => owner_of (fs (snd run) !! p) = Some "mysql") (volume_dirs w)
  /\ (forall p n, fs st !! p = Some n ->
        exists o, fs (snd run) !! p = Some (set_owner o n))
  /\ (forall p, p ∉ RESTORE_TEMP_DIR :: volume_dirs w ->
        fs (snd run) !! p = fs st !! p).
Proof.
  intros run. subst run. destruct (mkdir_needed_run w st) as (st' & -> & Hfs & _).
  cbn [fst snd]. rewrite Hfs. split; [reflexivity|]. split; [|split; [|split]].
  - rewrite lookup_after_mkdir_needed. cbv zeta.
    destruct (fs st !! RESTORE_TEMP_DIR);
      [|destruct (decide (RESTORE_TEMP_DIR ∈ RESTORE_TEMP_DIR :: volume_dirs w)) as [|Hn];
        [|exfalso; apply Hn; left]];
      destruct (decide (RESTORE_TEMP_DIR ∈ volume_dirs w)); simpl; eauto.
  - apply List.Forall_forall. intros p Hp%list_elem_of_In.
    rewrite lookup_after_mkdir_needed. cbv zeta.
    destruct (decide (p ∈ volume_dirs w)); [|contradiction].
    destruct (fs st !! p) as [[|]|]; [reflexivity|reflexivity|].
    destruct (decide (p ∈ RESTORE_TEMP_DIR :: volume_dirs w)) as [|Hn];
      [reflexivity|exfalso; apply Hn; right; assumption].
  - intros p n Hn. rewrite lookup_after_mkdir_needed, Hn. cbv zeta.
    destruct (decide (p ∈ volume_dirs w)); simpl; [eauto|].
    destruct n as [o|o c]; [exists o|exists o]; reflexivity.
  - intros p Hp. rewrite lookup_after_mkdir_needed. cbv zeta.
    destruct (decide (p ∈ volume_dirs w)) as [Hin|_].
    + exfalso. apply Hp. right. exact Hin.
    + destruct (fs st !! p); [reflexivity|].
      destruct (decide (p ∈ RESTORE_TEMP_DIR :: volume_dirs w)); [contradiction|reflexivity].
Qed.

(** X7. Running [mkdir_needed] a second time changes nothing in the file
    system. *)
Theorem mkdir_needed_again_changes_nothing (w : World) (st : State) :
  fs (snd (mkdir_needed w (snd (mkdir_needed w st)))) = fs (snd (mkdir_needed w st)).
Proof.
  destruct (mkdir_needed_run w st) as (st1 & -> & Hfs1 & _). cbn [snd].
  destruct (mkdir_needed_run w st1) as (st2 & -> & Hfs2 & _). cbn [snd].
  rewrite Hfs2, Hfs1. apply map_eq. intros p.
  rewrite (lookup_after_mkdir_needed w (after_mkdir_needed w (fs st))).
  rewrite !lookup_after_mkdir_needed. cbv zeta.
  destruct (decide (p ∈ volume_dirs w)) as [Hin|Hnin].
  - destruct (fs st !! p) as [n|]; simpl; [rewrite set_owner_twice; reflexivity|].
    destruct (decide (p ∈ RESTORE_TEMP_DIR :: volume_dirs w)) as [|Hn];
      [reflexivity|exfalso; apply Hn; right; assumption].
  - destruct (fs st !! p) as [n|]; [reflexivity|].
    destruct (decide (p ∈ RESTORE_TEMP_DIR :: volume_dirs w)); reflexivity.
Qed.

(** ** The configuration file *)

(** X13. With an override file in place and no reset asked for,
    [initialize_local_mycnf] leaves the override file as it is and
    writes, under the lock, the configuration rendered from it. *)
Theorem mycnf_keeps_existing_override
    (w : World) (st : State) (oo oc rendered : string) :
  let ctx := context w in
  let run := initialize_local_mycnf w st in
  is_Some (fs st !! mysql_conf ctx) ->
  not_dir_node (fs st !! mycnf_path ctx) = true ->
  mycnf_path ctx <> mycnf_override_path ctx ->
  reset_config ctx = false ->
  fs st !! mycnf_override_path ctx = Some (File oo oc) ->
  render_mycnf w oc = Some rendered ->
  fst run = Ok tt
  /\ fs (snd run) !! mycnf_override_path ctx = Some (File oo oc)
  /\ content_of (fs (snd run) !! mycnf_path ctx) = Some rendered
  /\ history (snd run) = (history st ++ mycnf_events_kept w rendered)%list.
Proof.
  intros ctx run [d Hd] Hnd Hne Hreset Hov Hrender. subst run ctx.
  unfold initialize_local_mycnf, path_exists, open_w, file_write, emit.
  run_monad. rewrite Hd. simpl.
  destruct (fs st !! mycnf_path (context w)) as [[?|o c]|] eqn:Hcnf;
    try discriminate; simpl;
    rewrite lookup_insert_ne by exact Hne; rewrite Hov, Hreset; simpl;
    rewrite lookup_insert_ne by exact Hne; rewrite Hov, Hrender; simpl;
    rewrite lookup_alter_ne, lookup_insert_ne, Hov by exact Hne;
    rewrite lookup_alter_eq, lookup_insert_eq; simpl;
    unfold mycnf_events_kept; rewrite <- !app_assoc; auto.
Qed.


(** ** [sort_config] *)

Module ConfigFacts.
Import Config.

Lemma insert_perm {V} (x : string * V) (l : odict V) :
  insert_by_key x l ≡ₚ x :: l.
Proof.
  induction l as [|y l IH]; [reflexivity|]. cbn [insert_by_key].
  destruct (String.leb _ _); [reflexivity|]. rewrite IH. apply Permutation_swap.
Qed.

Lemma sorted_perm {V} (l : odict V) : sorted_by_key l ≡ₚ l.
Proof.
  induction l as [|x l IH]; [reflexivity|]. cbn [sorted_by_key foldr].
  rewrite insert_perm. fold (sorted_by_key l). rewrite IH. reflexivity.
Qed.

Lemma key_le_trans {V} (a b c : string * V) : key_le a b -> key_le b c -> key_le a c.
Proof. unfold key_le. intros. etrans; eassumption. Qed.

Lemma key_le_total {V} (a b : string * V) :
  String.leb (fst a) (fst b) = false -> key_le b a.
Proof.
  unfold key_le, String.le. intros H.
  destruct (String.leb_total (fst a) (fst b)) as [H'|H']; [congruence|].
  rewrite H'. exact I.
Qed.

Lemma insert_sorted {V} (x : string * V) (l : odict V) :
  StronglySorted key_le l -> StronglySorted key_le (insert_by_key x l).
Proof.
  induction 1 as [|y l Hs IH Hall]; cbn [insert_by_key].
  - repeat constructor.
  - destruct (String.leb (fst x) (fst y)) eqn:Hxy.
    + constructor; [constructor; assumption|].
      assert (Hle : key_le x y) by (unfold key_le, String.le; rewrite Hxy; exact I).
      constructor; [exact Hle|].
      eapply List.Forall_impl; [|exact Hall]. intros z Hz.
      exact (key_le_trans x y z Hle Hz).
    + constructor; [exact IH|].
      rewrite insert_perm. constructor; [apply key_le_total, Hxy|exact Hall].
Qed.

Lemma sorted_sorted {V} (l : odict V) : StronglySorted key_le (sorted_by_key l).
Proof.
  induction l as [|x l IH]; [constructor|]. apply insert_sorted, IH.
Qed.

Lemma sorted_fixed {V} (l : odict V) :
  StronglySorted key_le l -> sorted_by_key l = l.
Proof.
  induction 1 as [|x l Hs IH Hall]; [reflexivity|].
  cbn [sorted_by_key foldr]. fold (sorted_by_key l). rewrite IH.
  destruct l as [|y l]; [reflexivity|]. cbn [insert_by_key].
  inversion Hall as [|? ? Hxy _]. unfold key_le, String.le in Hxy.
  destruct (String.leb (fst x) (fst y)); [reflexivity|contradiction].
Qed.

Lemma find_perm {V} (k : string) (l l' : odict V) :
  NoDup (map fst l) -> l ≡ₚ l' -> dict_get l k = dict_get l' k.
Proof.
  intros Hnd Hp. unfold dict_get. f_equal. revert Hnd.
  induction Hp as [|x l l' Hp IH|x y l|l l' l'' Hp IH Hp' IH']; intros Hnd.
  - reflexivity.
  - cbn [List.find]. destruct (String.eqb (fst x) k); [reflexivity|].
    apply IH. inversion Hnd; assumption.
  - cbn [List.find].
    destruct (String.eqb_spec (fst y) k) as [Hy|_],
             (String.eqb_spec (fst x) k) as [Hx|_]; try reflexivity.
    exfalso. cbn [map] in Hnd. inversion Hnd as [|? ? Hnin _]. apply Hnin.
    rewrite Hy, <- Hx. left.
  - rewrite IH by exact Hnd. apply IH'.
    rewrite <- (Permutation_map fst Hp). exact Hnd.
Qed.

Lemma sort_config_sorted (config : sections) :
  StronglySorted key_le (sort_config config)
  /\ Forall (fun s => StronglySorted key_le (snd s)) (sort_config config).
Proof.
  unfold sort_config. split; [apply sorted_sorted|].
  rewrite sorted_perm. apply List.Forall_map, List.Forall_forall.
  intros s _. apply sorted_sorted.
Qed.

Lemma sections_sorted_fixed (l : sections) :
  Forall (fun s => StronglySorted key_le (snd s)) l ->
  map (fun s => (fst s, sorted_by_key (snd s))) l = l.
Proof.
  induction 1 as [|[name items] l Hs _ IH]; [reflexivity|].
  cbn [map fst snd]. rewrite IH, (sorted_fixed items Hs). reflexivity.
Qed.

(** X10. [sort_config] returns the sections in the order of their names
    and the options of each section in the order of their keys; up to
    these two orders the sections and their options are the ones it was
    given. *)
Theorem sort_config_sorts_and_keeps (config : sections) :
  StronglySorted key_le (sort_config config)
  /\ Forall (fun s => StronglySorted key_le (snd s)) (sort_config config)
  /\ exists reordered,
       sort_config config ≡ₚ reordered
       /\ Forall2 (fun s s' => fst s' = fst s /\ snd s' ≡ₚ snd s) config reordered.
Proof.
  destruct (sort_config_sorted config) as [Hs Hall].
  split; [exact Hs|]. split; [exact Hall|].
  exists (map (fun s => (fst s, sorted_by_key (snd s))) config).
  split; [apply sorted_perm|]. clear Hs Hall.
  induction config as [|s config IH]; constructor.
  - split; [reflexivity|apply sorted_perm].
  - exact IH.
Qed.

(** X11. Sorting a sorted configuration changes nothing:
    [sort_config (sort_config c) = sort_config c]. *)
Theorem sort_config_idempotent (config : sections) :
  sort_config (sort_config config) = sort_config config.
Proof.
  destruct (sort_config_sorted config) as (Hs & Hall).
  unfold sort_config at 1. rewrite (sections_sorted_fixed _ Hall).
  apply sorted_fixed, Hs.
Qed.

(** X12. In a configuration that holds no section name twice, and for a
    section that holds no key twice, every option reads the same value
    before and after [sort_config]. *)
Theorem sort_config_keeps_values
    (config : sections) (name key : string) (items : odict (option string)) :
  NoDup (map fst config) ->
  NoDup (map fst items) ->
  dict_get config name = Some items ->
  exists items', dict_get (sort_config config) name = Some items'
                 /\ dict_get items' key = dict_get items key.
Proof.
  intros Hnd Hndi Hget. exists (sorted_by_key items). split.
  - unfold sort_config.
    rewrite (find_perm name _ (map (fun s => (fst s, sorted_by_key (snd s))) config)).
    + unfold dict_get in *. clear Hnd.
      induction config as [|[n its] config IH]; [discriminate|].
      cbn [map List.find fst snd] in *.
      destruct (String.eqb n name); [simpl in *; congruence|]. apply IH, Hget.
    + rewrite (Permutation_map fst (sorted_perm _)), map_map. exact Hnd.
    + apply sorted_perm.
  - symmetry. apply find_perm; [exact Hndi|]. symmetry. apply sorted_perm.
Qed.

End ConfigFacts.

(** ** What a computation adds to the history *)

Section Steps.
Context {E : event -> Prop}.

Lemma steps_silent {A} (m : M A) :
  (forall st, history (snd (m st)) = history st /\ live (snd (m st)) = live st) ->
  steps E m.
Proof.
  intros H st. exists []. destruct (H st) as [Hh Hl].
  rewrite Hh, app_nil_r. auto.
Qed.

Lemma steps_ret {A} (a : A) : steps E (mret a).
Proof. apply steps_silent. intros st. split; reflexivity. Qed.

Lemma steps_raise {A} (e : exn) : steps E (@raise A e).
Proof. apply steps_silent. intros st. split; reflexivity. Qed.

Lemma steps_out_of_fuel {A} : steps E (@out_of_fuel A).
Proof. apply steps_silent. intros st. split; reflexivity. Qed.

Lemma steps_get : steps E get_state.
Proof. apply steps_silent. intros st. split; reflexivity. Qed.

Lemma steps_lift {A} (o : outcome A) : steps E (lift o).
Proof. apply steps_silent. intros st. split; reflexivity. Qed.

Lemma steps_of_option {A} (o : option A) (e : exn) : steps E (of_option o e).
Proof. destruct o; [apply steps_ret|apply steps_raise]. Qed.

Lemma steps_set_fs (f : filesystem -> filesystem) : steps E (modify (set_fs f)).
Proof. apply steps_silent. intros st. split; reflexivity. Qed.

Lemma steps_tick : steps E (modify tick).
Proof. apply steps_silent. intros st. split; reflexivity. Qed.

Lemma steps_count_query : steps E (modify count_query).
Proof. apply steps_silent. intros st. split; reflexivity. Qed.

Lemma steps_emit (e : event) : E e -> steps E (emit e).
Proof.
  intros He st. exists [e]. simpl. split; [reflexivity|]. split; [|reflexivity].
  constructor; [exact He|constructor].
Qed.

Lemma steps_bind {A B} (m : M A) (f : A -> M B) :
  steps E m -> (forall a, steps E (f a)) -> steps E (m ≫= f).
Proof.
  intros Hm Hf st. destruct (Hm st) as (evs & Hh & HE & Hl).
  unfold mbind, M_bind. destruct (m st) as [[a| e |] st1]; simpl in *.
  - destruct (Hf a st1) as (evs' & Hh' & HE' & Hl').
    exists (evs ++ evs')%list. rewrite Hh', Hh, Hl', Hl, app_assoc.
    split; [reflexivity|]. split; [apply Forall_app; auto|reflexivity].
  - exists evs. auto.
  - exists evs. auto.
Qed.

Lemma steps_try {A} (m : M A) (h : exn -> M A) :
  steps E m -> (forall e, steps E (h e)) -> steps E (try_except m h).
Proof.
  intros Hm Hh st. destruct (Hm st) as (evs & Hhist & HE & Hl).
  unfold try_except. destruct (m st) as [[a| e |] st1]; simpl in *.
  - exists evs. auto.
  - destruct (Hh e st1) as (evs' & Hh' & HE' & Hl').
    exists (evs ++ evs')%list. rewrite Hh', Hhist, Hl', Hl, app_assoc.
    split; [reflexivity|]. split; [apply Forall_app; auto|reflexivity].
  - exists evs. auto.
Qed.

Lemma steps_for_each {A} (l : list A) (body : A -> M unit) :
  (forall a, steps E (body a)) -> steps E (for_each l body).
Proof.
  intros Hb. induction l as [|a l IH]; cbn [for_each].
  - apply steps_ret.
  - apply steps_bind; [apply Hb|intros _; exact IH].
Qed.

End Steps.

Lemma steps_weaken {A} (E E' : event -> Prop) (m : M A) :
  (forall e, E e -> E' e) -> steps E m -> steps E' m.
Proof.
  intros HE Hm st. destruct (Hm st) as (evs & Hh & Hall & Hl).
  exists evs. split; [exact Hh|]. split; [|exact Hl].
  eapply List.Forall_impl; [|exact Hall]. exact HE.
Qed.

Ltac steps_step :=
  match goal with
  | |- steps _ (mbind _ _) => apply steps_bind; [|intros ?]
  | |- steps _ (mret _) => apply steps_ret
  | |- steps _ (raise _) => apply steps_raise
  | |- steps _ out_of_fuel => apply steps_out_of_fuel
  | |- steps _ get_state => apply steps_get
  | |- steps _ (lift _) => apply steps_lift
  | |- steps _ (of_option _ _) => apply steps_of_option
  | |- steps _ (modify (set_fs _)) => apply steps_set_fs
  | |- steps _ (modify tick) => apply steps_tick
  | |- steps _ (modify count_query) => apply steps_count_query
  | |- steps _ (emit _) => apply steps_emit; exact I
  | |- steps _ (for_each _ _) => apply steps_for_each; intros ?
  | |- steps _ (try_except _ _) => apply steps_try; [|intros ?]
  | |- steps _ (match ?x with _ => _ end) => destruct x
  | |- steps _ (let (_, _) := ?x in _) => destruct x
  | |- steps _ (if ?b then _ else _) => destruct b
  end.

Ltac steps_auto := repeat steps_step.

Lemma steps_path_exists {E} (p : string) : steps E (path_exists p).
Proof. unfold path_exists. steps_auto. Qed.

Lemma steps_read_text {E} (p : string) : steps E (read_text p).
Proof. unfold read_text. steps_auto. Qed.

Lemma steps_os_mkdir (p : string) : steps setup_event (os_mkdir p).
Proof. unfold os_mkdir, path_exists. steps_auto. Qed.

Lemma steps_chown (p o : string) : steps setup_event (shutil_chown p o).
Proof. unfold shutil_chown, path_exists. steps_auto. Qed.

Lemma steps_open_w (p : string) : steps setup_event (open_w p).
Proof. unfold open_w. steps_auto. Qed.

Lemma steps_file_write (p d : string) : steps setup_event (file_write p d).
Proof. unfold file_write. steps_auto. Qed.

Lemma steps_copy (src dst : string) : steps setup_event (shutil_copy src dst).
Proof. unfold shutil_copy. steps_auto. Qed.

Lemma steps_download (w : World) (r l : string) :
  steps setup_event (download_to_file w r l).
Proof. unfold download_to_file. steps_auto. Qed.

Lemma steps_popen_run (w : World) (c : command) : steps setup_event (popen_run w c).
Proof. unfold popen_run. steps_auto. Qed.

Lemma steps_check_run_process (w : World) (c : command) :
  steps setup_event (check_run_process w c).
Proof. unfold check_run_process. steps_step; [apply steps_popen_run|]. steps_auto. Qed.

Lemma steps_mkdir_needed (w : World) : steps setup_event (mkdir_needed w).
Proof.
  unfold mkdir_needed. cbv zeta.
  repeat first [apply steps_path_exists | apply steps_os_mkdir | apply steps_chown
               | steps_step].
Qed.

Lemma steps_download_backup_file (w : World) (p n : string) :
  steps setup_event (download_backup_file w p n).
Proof. apply steps_download. Qed.

Lemma steps_download_binlogbackup_file (w : World) (d : string) :
  steps setup_event (download_binlogbackup_file w d).
Proof.
  unfold download_binlogbackup_file. cbv zeta.
  repeat first [apply steps_download | apply steps_read_text | steps_step].
Qed.

Lemma steps_copy_binlog (w : World) (l : list string) :
  steps setup_event (copy_binlog_to_new_path w l).
Proof.
  unfold copy_binlog_to_new_path, copy_one_binlog. cbv zeta.
  repeat first [apply steps_open_w | apply steps_copy | apply steps_chown
               | apply steps_file_write | steps_step].
Qed.

Lemma steps_decompress (w : World) (n : string) :
  steps setup_event (decompress_backup_file w n).
Proof. unfold decompress_backup_file. repeat first [apply steps_popen_run | steps_step]. Qed.

Lemma steps_apply_backup (w : World) : steps setup_event (apply_backup_file w).
Proof. unfold apply_backup_file. repeat first [apply steps_popen_run | steps_step]. Qed.

Lemma steps_initialize_local_mycnf (w : World) :
  steps setup_event (initialize_local_mycnf w).
Proof.
  unfold initialize_local_mycnf. cbv zeta.
  repeat first [apply steps_path_exists | apply steps_os_mkdir | apply steps_open_w
               | apply steps_file_write | steps_step].
Qed.

Lemma steps_marker (w : World) :
  steps setup_event (get_xtrabackup_binlog_info_from_instance_local w).
Proof.
  unfold get_xtrabackup_binlog_info_from_instance_local. cbv zeta.
  repeat first [apply steps_path_exists | apply steps_read_text | steps_step].
Qed.

Lemma steps_chown_data_dir (w : World) : steps setup_event (chown_data_dir w).
Proof. apply steps_check_run_process. Qed.

Lemma steps_show (w : World) : steps setup_event (show_last_and_first_binlog w).
Proof.
  unfold show_last_and_first_binlog. cbv zeta.
  repeat first [apply steps_read_text | steps_step].
Qed.

Lemma steps_xdb_show (w : World) (p : string) :
  steps setup_event (xdb_show_binlog_index w p).
Proof.
  unfold xdb_show_binlog_index. cbv zeta.
  repeat first [apply steps_popen_run | steps_step].
Qed.

Lemma steps_init_metadata (w : World) (csi ci : pyval) (t : string) (r : NodeRole) :
  steps setup_event (init_mysqld_metadata w csi ci t r).
Proof.
  unfold init_mysqld_metadata.
  repeat first [apply steps_check_run_process | steps_step].
Qed.

Lemma steps_wait_loop (w : World) (fuel : nat) (d : Z) (port e : string) :
  steps poll_event (wait_loop w fuel d port e).
Proof.
  induction fuel as [|fuel IH]; cbn [wait_loop]; [apply steps_out_of_fuel|].
  unfold time_time, time_sleep, check_binlog_apply_index_status, execute_mysqlcmd.
  repeat first [exact IH | steps_step].
Qed.

Lemma steps_monitor (w : World) (fuel : nat) (port e : string) :
  steps poll_event (wait_binlog_apply_ready w fuel port e).
Proof.
  unfold wait_binlog_apply_ready, time_time. cbv zeta.
  repeat first [apply steps_wait_loop | steps_step].
Qed.

(** ** The shape of a restoring run *)

Lemma force_init_done_app (w : World) (evs setup : list event) :
  force_init_done w setup -> force_init_done w (evs ++ setup).
Proof.
  intros (before & csi & term & ->). exists (evs ++ before)%list, csi, term.
  rewrite app_assoc. reflexivity.
Qed.

Lemma shaped_bind {A} (w : World) (m : M A) (f : A -> M unit) :
  steps setup_event m -> (forall a, shaped w (f a)) -> shaped w (m ≫= f).
Proof.
  intros Hm Hf st. destruct (Hm st) as (evs & Hh & HE & Hl).
  unfold mbind, M_bind. destruct (m st) as [[a| e |] st1]; simpl in *.
  - destruct (Hf a st1) as (setup & tail & Hh' & Hsetup & Hcases).
    exists (evs ++ setup)%list, tail. rewrite Hh', Hh, Hl in *.
    split; [rewrite !app_assoc; reflexivity|].
    split; [apply Forall_app; auto|].
    destruct Hcases as [H|[(polls & H)|[(polls & se & H)|(polls & H)]]].
    + left. exact H.
    + right; left. exists polls.
      destruct H as (? & ? & ? & ? & ?). auto using force_init_done_app.
    + right; right; left. exists polls, se.
      destruct H as (? & ? & ? & ? & ? & ?). auto 10 using force_init_done_app.
    + right; right; right. exists polls.
      destruct H as (? & ? & ? & ? & ?). auto using force_init_done_app.
  - exists evs, []. rewrite app_nil_r. split; [exact Hh|]. split; [exact HE|].
    left. split; [reflexivity|]. split; [discriminate|exact Hl].
  - exists evs, []. rewrite app_nil_r. split; [exact Hh|]. split; [exact HE|].
    left. split; [reflexivity|]. split; [discriminate|exact Hl].
Qed.

Lemma shaped_raise (w : World) (e : exn) : shaped w (raise e).
Proof.
  intros st. exists [], []. simpl. rewrite app_nil_r.
  split; [reflexivity|]. split; [constructor|]. left. split; [reflexivity|].
  split; [discriminate|reflexivity].
Qed.

Lemma check_run_process_cases (w : World) (c : command) (st : State) :
  check_run_process w c st = (Raise (FileNotFoundError "executable"), st)
  \/ (exists st', check_run_process w c st = (Ok tt, st')
                  /\ history st' = (history st ++ [EvRun c 0])%list
                  /\ live st' = live st)
  \/ (exists code st', code <> 0
        /\ check_run_process w c st = (Raise (ProcessError c code), st')
        /\ history st' = (history st ++ [EvRun c code])%list
        /\ live st' = live st).
Proof.
  unfold check_run_process, popen_run, emit. run_monad.
  destruct (executable w c); [|left; reflexivity]. simpl.
  destruct (Z.eqb_spec (exit_code (run_process w c (fs st))) 0) as [He|Hne].
  - right; left. eexists. split; [reflexivity|]. simpl. rewrite He. auto.
  - right; right. eexists _, _. split; [exact Hne|]. split; [reflexivity|]. auto.
Qed.

Lemma bind_fuel {A B} (m : M A) (f : A -> M B) (st st1 : State) :
  m st = (OutOfFuel, st1) -> (m ≫= f) st = (OutOfFuel, st1).
Proof. intros H. unfold mbind, M_bind. rewrite H. reflexivity. Qed.

Lemma init_mysqld_metadata_cases
    (w : World) (csi ci : pyval) (term : string) (role : NodeRole) (st : State) :
  (exists e st' evs,
     init_mysqld_metadata w csi ci term role st = (Raise e, st')
     /\ history st' = (history st ++ evs)%list
     /\ Forall setup_event evs /\ live st' = live st)
  \/ (exists used st',
        init_mysqld_metadata w csi ci term role st = (Ok tt, st')
        /\ history st' = (history st ++ [EvRun (init_metadata_cmd w used term) 0])%list
        /\ live st' = live st).
Proof.
  assert (Hrun : forall used,
    (init_mysqld_metadata w csi ci term role st
     = check_run_process w (init_metadata_cmd w used term) st) ->
    (exists e st' evs,
       init_mysqld_metadata w csi ci term role st = (Raise e, st')
       /\ history st' = (history st ++ evs)%list
       /\ Forall setup_event evs /\ live st' = live st)
    \/ (exists used st',
          init_mysqld_metadata w csi ci term role st = (Ok tt, st')
          /\ history st' = (history st ++ [EvRun (init_metadata_cmd w used term) 0])%list
          /\ live st' = live st)).
  { intros used ->.
    destruct (check_run_process_cases w (init_metadata_cmd w used term) st)
      as [H|[(st' & H & Hh & Hl)|(code & st' & Hc & H & Hh & Hl)]]; rewrite H.
    - left. exists (FileNotFoundError "executable"), st, [].
      rewrite app_nil_r. auto.
    - right. eauto.
    - left. eexists _, st', _. split; [reflexivity|]. split; [exact Hh|].
      split; [repeat constructor|exact Hl]. }
  unfold init_mysqld_metadata in *. destruct (role_eqb role Voter).
  - destruct ci as [|n|s|shown];
      [left; exists commit_index_error, st, []; rewrite app_nil_r; auto| | |];
      eapply Hrun; reflexivity.
  - eapply Hrun; reflexivity.
Qed.

(** The phase from force-init to the end, as [start] runs it. *)
Lemma engine_phase_shaped
    (w : World) (fuel : nat) (csi ci : pyval) (term end_index : string)
    (role : NodeRole) :
  shaped w
    (init_mysqld_metadata w csi ci term role ≫= fun _ =>
     popen_spawn w (engine_cmd w) ≫= fun p =>
     wait_binlog_apply_ready w fuel (port_access (context w)) end_index ≫= fun _ =>
     proc_kill p ≫= fun _ =>
     proc_wait p ≫= fun _ =>
     sync_cluster_metadata w ≫= fun _ =>
     emit EvMarkInitialized).
Proof.
  intros st. set (c := engine_cmd w).
  destruct (init_mysqld_metadata_cases w csi ci term role st)
    as [(e & st1 & evs & Hi & Hh1 & Hev & Hl1)|(used & st1 & Hi & Hh1 & Hl1)].
  { rewrite (bind_raise _ _ _ _ _ Hi). exists evs, []. cbn [fst snd].
    rewrite app_nil_r. split; [exact Hh1|]. split; [exact Hev|].
    left. split; [reflexivity|]. split; [discriminate|exact Hl1]. }
  rewrite (bind_ok _ _ _ _ _ Hi).
  set (setup := [EvRun (init_metadata_cmd w used term) 0]) in *.
  assert (Hsetup : Forall setup_event setup) by (repeat constructor).
  assert (Hdone : force_init_done w setup) by (exists [], used, term; reflexivity).
  destruct (executable w c) eqn:Hx.
  2:{ assert (Hs : popen_spawn w c st1 = (Raise (FileNotFoundError "executable"), st1))
        by (unfold popen_spawn; rewrite Hx; reflexivity).
      rewrite (bind_raise _ _ _ _ _ Hs). exists setup, []. cbn [fst snd].
      rewrite app_nil_r. split; [exact Hh1|]. split; [exact Hsetup|].
      left. split; [reflexivity|]. split; [discriminate|exact Hl1]. }
  set (st2 := log_event (EvSpawn c) (set_live (fun l => (l ++ [c])%list) st1)).
  assert (Hs : popen_spawn w c st1 = (Ok c, st2))
    by (unfold popen_spawn; rewrite Hx; reflexivity).
  rewrite (bind_ok _ _ _ _ _ Hs).
  assert (Hh2 : history st2 = (history st ++ setup ++ [EvSpawn c])%list)
    by (simpl; rewrite Hh1; repeat (rewrite <- ?List.app_assoc; simpl); reflexivity).
  assert (Hl2 : live st2 = (live st ++ [c])%list) by (simpl; rewrite Hl1; reflexivity).
  destruct (steps_monitor w fuel (port_access (context w)) end_index st2)
    as (polls & Hh3 & Hpolls & Hl3).
  destruct (monitor_outcomes w fuel (port_access (context w))
              end_index st2) as (Hres & _ & _).
  cbv zeta in Hres.
  destruct (wait_binlog_apply_ready w fuel (port_access (context w)) end_index st2)
    as [r3 st3] eqn:Hw. cbn [fst snd] in *.
  assert (Hh3' : history st3 = (history st ++ setup ++ EvSpawn c :: polls)%list).
  { rewrite Hh3, Hh2. repeat (rewrite <- ?List.app_assoc; simpl). reflexivity. }
  destruct Hres as [-> | [-> | ->]].
  2:{ rewrite (bind_raise _ _ _ _ _ Hw). exists setup, (EvSpawn c :: polls).
      cbn [fst snd]. split; [exact Hh3'|]. split; [exact Hsetup|].
      right; left. exists polls. rewrite Hl3, Hl2. auto 10. }
  2:{ rewrite (bind_fuel _ _ _ _ Hw). exists setup, (EvSpawn c :: polls).
      cbn [fst snd]. split; [exact Hh3'|]. split; [exact Hsetup|].
      right; left. exists polls. rewrite Hl3, Hl2. auto 10. }
  rewrite (bind_ok _ _ _ _ _ Hw).
  set (st5 := log_event (EvWait c) (set_live (remove_first c) (log_event (EvKill c) st3))).
  assert (Hk : (proc_kill c ≫= fun _ => proc_wait c ≫= fun _ =>
                sync_cluster_metadata w ≫= fun _ => emit EvMarkInitialized) st3
               = (sync_cluster_metadata w ≫= fun _ => emit EvMarkInitialized) st5)
    by reflexivity.
  rewrite Hk.
  assert (Hh5 : history st5
                = (history st ++ setup ++ EvSpawn c :: polls ++ [EvKill c; EvWait c])%list).
  { simpl. rewrite Hh3'. repeat (rewrite <- ?List.app_assoc; simpl). reflexivity. }
  assert (Hl5 : live st5 = remove_first c (live st ++ [c])%list)
    by (simpl; rewrite Hl3, Hl2; reflexivity).
  unfold sync_cluster_metadata.
  destruct (check_run_process_cases w (sync_metadata_cmd w) st5)
    as [H|[(st6 & H & Hh6 & Hl6)|(code & st6 & Hc & H & Hh6 & Hl6)]].
  - rewrite (bind_raise _ _ _ _ _ H). cbn [fst snd].
    exists setup, (EvSpawn c :: polls ++ [EvKill c; EvWait c])%list.
    split; [exact Hh5|]. split; [exact Hsetup|].
    right; right; left. exists polls, []. rewrite Hl5. eauto 10.
  - rewrite (bind_ok _ _ _ _ _ H). cbn [fst snd emit modify].
    exists setup, (EvSpawn c :: polls
                   ++ [EvKill c; EvWait c; EvRun (sync_metadata_cmd w) 0;
                       EvMarkInitialized])%list.
    split.
    { simpl. rewrite Hh6, Hh5. repeat (rewrite <- ?List.app_assoc; simpl).
      reflexivity. }
    split; [exact Hsetup|].
    right; right; right. exists polls. simpl. rewrite Hl6, Hl5. auto 10.
  - rewrite (bind_raise _ _ _ _ _ H). cbn [fst snd].
    exists setup, (EvSpawn c :: polls
                   ++ EvKill c :: EvWait c :: [EvRun (sync_metadata_cmd w) code])%list.
    split.
    { rewrite Hh6, Hh5. repeat (rewrite <- ?List.app_assoc; simpl). reflexivity. }
    split; [exact Hsetup|].
    right; right; left. exists polls, [EvRun (sync_metadata_cmd w) code].
    rewrite Hl6, Hl5. split; [reflexivity|]. split; [exact Hpolls|].
    split; [exact Hdone|]. split; [repeat constructor|]. eauto.
Qed.

(** ** Every run of [start] has the shape *)

Lemma steps_getitem {E} (d : gmap string pyval) (k : string) : steps E (getitem d k).
Proof. unfold getitem. apply steps_of_option. Qed.

Lemma steps_as_str {E} (v : pyval) (e : exn) : steps E (as_str v e).
Proof. unfold as_str. destruct v; try apply steps_raise; apply steps_ret. Qed.

Lemma start_shaped (w : World) (fuel : nat) (path : string) :
  restore_role (node_role (context w)) = true ->
  shaped w (start w fuel path).
Proof.
  intros Hrole. unfold start.
  assert (Hgate : negb (role_eqb (node_role (context w)) Candidate)
                  && negb (role_eqb (node_role (context w)) Learner) = false).
  { unfold restore_role in Hrole. destruct (node_role (context w)); 
      simpl in *; congruence. }
  apply shaped_bind; [apply steps_read_text|intros text].
  apply shaped_bind; [apply steps_of_option|intros params].
  apply shaped_bind; [apply steps_getitem|intros commit_index].
  apply shaped_bind; [apply steps_getitem|intros backup_file_path].
  apply shaped_bind; [apply steps_getitem|intros binlog_dir_path].
  apply shaped_bind; [apply steps_getitem|intros storage_name].
  apply shaped_bind; [apply steps_getitem|intros sink].
  cbv zeta. rewrite Hgate.
  apply shaped_bind; [apply steps_as_str|intros storage].
  apply shaped_bind;
    [destruct (known_storage w storage); [apply steps_ret|apply steps_raise]|intros _].
  apply shaped_bind; [apply steps_mkdir_needed|intros _].
  apply shaped_bind; [apply steps_as_str|intros bfp].
  apply shaped_bind; [apply steps_of_option|intros bfn].
  apply shaped_bind; [apply steps_download_backup_file|intros _].
  apply shaped_bind; [apply steps_decompress|intros _].
  apply shaped_bind; [apply steps_initialize_local_mycnf|intros _].
  apply shaped_bind; [apply steps_apply_backup|intros _].
  apply shaped_bind; [apply steps_as_str|intros bdp].
  apply shaped_bind; [apply steps_download_binlogbackup_file|intros bins].
  apply shaped_bind; [apply steps_copy_binlog|intros _].
  apply shaped_bind; [apply steps_marker|intros csi].
  apply shaped_bind; [apply steps_chown_data_dir|intros _].
  apply shaped_bind; [apply steps_show|intros [last_binlog first_binlog]].
  apply shaped_bind; [apply steps_xdb_show|intros [end_index end_term]].
  apply engine_phase_shaped.
Qed.

(** ** What the shape of a run gives *)


(** A list has one place at most where an element outside [P] sits
    between two runs of elements of [P]. *)
Lemma split_at_unique {A} (P : A -> Prop) (l1 l2 l1' l2' : list A) (x x' : A) :
  (l1 ++ x :: l2 = l1' ++ x' :: l2')%list ->
  Forall P l1' -> Forall P l2' -> ~ P x ->
  l1 = l1' /\ x = x' /\ l2 = l2'.
Proof.
  revert l1'. induction l1 as [|a l1 IH]; intros [|y l1'] Heq H1 H2 Hx;
    simpl in Heq; injection Heq as Ha Hrest.
  - subst. auto.
  - subst. inversion H1; contradiction.
  - subst. apply Forall_app in H2 as [_ H2]. inversion H2; contradiction.
  - subst. inversion H1; subst.
    destruct (IH l1' Hrest) as (-> & -> & ->); auto.
Qed.

Lemma setup_not_spawn (e : event) : setup_event e -> is_spawn e = false.
Proof. destruct e; simpl; tauto. Qed.

Lemma poll_not_spawn (e : event) : poll_event e -> is_spawn e = false.
Proof. destruct e; simpl; tauto. Qed.

Lemma setup_not_mark (e : event) : setup_event e -> is_mark e = false.
Proof. destruct e; simpl; tauto. Qed.

Lemma poll_not_mark (e : event) : poll_event e -> is_mark e = false.
Proof. destruct e; simpl; tauto. Qed.

Lemma start_run_shape (w : World) (fuel : nat) (path : string) (st : State) :
  restore_role (node_role (context w)) = true ->
  run_shape w (history st) (live st)
            (fst (start w fuel path st)) (snd (start w fuel path st)).
Proof. intros H. exact (start_shaped w fuel path H st). Qed.


(** X3. On a restoring node [start] marks the node initialized exactly
    when it returns normally: then the mark is the last thing it does and
    it is made once; a run that raises has made no mark. *)
Theorem start_marks_node_on_success_only
    (w : World) (fuel : nat) (path : string) (st : State) :
  restore_role (node_role (context w)) = true ->
  let run := start w fuel path st in
  exists evs,
    history (snd run) = (history st ++ evs)%list
    /\ (fst run = Ok tt ->
        exists before, evs = (before ++ [EvMarkInitialized])%list
                       /\ ~ In EvMarkInitialized before)
    /\ (fst run <> Ok tt -> ~ In EvMarkInitialized evs).
Proof.
  intros Hrole run. subst run.
  assert (Hno : forall l, Forall (fun e => is_mark e = false) l ->
                          ~ In EvMarkInitialized l).
  { intros l Hl Hin. rewrite List.Forall_forall in Hl. specialize (Hl _ Hin).
    discriminate. }
  assert (Hs : forall l, Forall setup_event l -> Forall (fun e => is_mark e = false) l).
  { intros l. apply List.Forall_impl, setup_not_mark. }
  assert (Hp : forall l, Forall poll_event l -> Forall (fun e => is_mark e = false) l).
  { intros l. apply List.Forall_impl, poll_not_mark. }
  destruct (start_run_shape w fuel path st Hrole)
    as (setup & tail & Hh & Hsetup & Hcase).
  exists (setup ++ tail)%list. split; [exact Hh|].
  destruct Hcase as [(-> & Hr & _)|[(polls & -> & Hpolls & _ & Hr & _)|
         [(polls & sync & -> & Hpolls & _ & Hsync & [e Hr] & _)
         |(polls & -> & Hpolls & _ & Hr & _)]]].
  - split; [contradiction|]. intros _. apply Hno. rewrite app_nil_r. auto.
  - split; [destruct Hr as [Hr|Hr]; rewrite Hr; discriminate|]. intros _.
    apply Hno. apply Forall_app. split; [auto|]. constructor; [reflexivity|auto].
  - split; [rewrite Hr; discriminate|]. intros _. apply Hno.
    apply Forall_app. split; [auto|]. constructor; [reflexivity|].
    apply Forall_app. split; [auto|]. repeat (constructor; [reflexivity|]). auto.
  - split; [|rewrite Hr; congruence]. intros _.
    exists (setup ++ EvSpawn (engine_cmd w) :: polls
            ++ [EvKill (engine_cmd w); EvWait (engine_cmd w);
                EvRun (sync_metadata_cmd w) 0])%list.
    split.
    + repeat (rewrite <- ?List.app_assoc; simpl). reflexivity.
    + apply Hno. apply Forall_app. split; [auto|]. constructor; [reflexivity|].
      apply Forall_app. split; [auto|]. repeat constructor.
Qed.

(** X5. Wherever the history of a run of [start] shows a process being
    started in the background, it is the engine, the event just before
    it is a force-init that exited with status 0, nothing before it was a
    start, a kill, a wait, a sleep, a query or the mark, and no other
    process is started after it. *)
Theorem start_spawns_engine_after_force_init
    (w : World) (fuel : nat) (path : string) (st : State)
    (before after : list event) (c : command) :
  history (snd (start w fuel path st))
  = (history st ++ before ++ EvSpawn c :: after)%list ->
  c = engine_cmd w
  /\ (exists earlier csi term,
        before = (earlier ++ [EvRun (init_metadata_cmd w csi term) 0])%list)
  /\ Forall setup_event before
  /\ Forall (fun e => is_spawn e = false) after.
Proof.
  intros Hh.
  destruct (restore_role (node_role (context w))) eqn:Hrole.
  2:{ destruct (start_skips_other_roles w fuel path st Hrole) as [Hst _].
      rewrite Hst in Hh. exfalso.
      rewrite <- (app_nil_r (history st)) in Hh at 1.
      apply app_inv_head in Hh. destruct before; discriminate. }
  assert (Hs : forall l, Forall setup_event l -> Forall (fun e => is_spawn e = false) l).
  { intros l. apply List.Forall_impl, setup_not_spawn. }
  assert (Hp : forall l, Forall poll_event l -> Forall (fun e => is_spawn e = false) l).
  { intros l. apply List.Forall_impl, poll_not_spawn. }
  assert (Hfin : forall setup rest,
            (before ++ EvSpawn c :: after = setup ++ EvSpawn (engine_cmd w) :: rest)%list ->
            Forall setup_event setup -> force_init_done w setup ->
            Forall (fun e => is_spawn e = false) rest ->
            c = engine_cmd w
            /\ (exists earlier csi term,
                  before = (earlier ++ [EvRun (init_metadata_cmd w csi term) 0])%list)
            /\ Forall setup_event before
            /\ Forall (fun e => is_spawn e = false) after).
  { intros setup rest Heq Hsetup Hdone Hrest.
    destruct (split_at_unique (fun e => is_spawn e = false) _ _ _ _ _ _ Heq)
      as (-> & Hc & ->); [auto|exact Hrest|simpl; discriminate|].
    injection Hc as ->. auto. }
  destruct (start_run_shape w fuel path st Hrole)
    as (setup & tail & Hh' & Hsetup & Hcase).
  rewrite Hh' in Hh. apply app_inv_head in Hh. symmetry in Hh.
  destruct Hcase as [(-> & _)|[(polls & -> & Hpolls & Hdone & _)|
      [(polls & sync & -> & Hpolls & Hdone & Hsync & _)
      |(polls & -> & Hpolls & Hdone & _)]]].
  - exfalso. rewrite app_nil_r in Hh. subst setup.
    apply Hs in Hsetup. apply Forall_app in Hsetup as [_ H]. inversion H. discriminate.
  - apply (Hfin _ _ Hh); auto.
  - apply (Hfin _ _ Hh); auto. apply Forall_app. split; [auto|].
    repeat (constructor; [reflexivity|]). auto.
  - apply (Hfin _ _ Hh); auto. apply Forall_app. split; [auto|]. repeat constructor.
Qed.

(** ** The theorems at work on the concrete node *)


Lemma show_on_empty_index_witness :
  fst (show_last_and_first_binlog Cases.world (Cases.with_index ""))
  = Ok ("/data/mysql/log/mysql_bin.-00001", "/data/mysql/log/mysql_bin.1000000000").
Proof.
  rewrite (show_on_empty_index Cases.world (Cases.with_index "") "mysql");
    reflexivity.
Defined.

Lemma show_rejects_unnumbered_line_witness :
  exists s, show_last_and_first_binlog Cases.world (Cases.with_index Cases.stray_line)
            = (Raise (ValueError s), Cases.with_index Cases.stray_line).
Proof.
  apply (show_rejects_unnumbered_line Cases.world (Cases.with_index Cases.stray_line)
           "mysql" Cases.stray_line
           ["/data/mysql/log/mysql_bin.000001
"] [1] "/data/mysql/log/mysql_bin.index
" []).
  - reflexivity.
  - reflexivity.
  - repeat constructor.
  - reflexivity.
Defined.

Lemma copy_then_show_witness :
  exists hi lo,
    fst ((copy_binlog_to_new_path Cases.world (map binlog_name [1; 3; 2])
          ≫= fun _ => show_last_and_first_binlog Cases.world)
           (initial_state Cases.staged))
    = Ok (log_path Cases.world (binlog_name hi), log_path Cases.world (binlog_name lo))
    /\ In hi [1; 3; 2] /\ In lo [1; 3; 2]
    /\ Forall (fun n => lo <= n <= hi) [1; 3; 2].
Proof.
  refine (copy_then_show_picks_extremes Cases.world [1; 3; 2]
            (initial_state Cases.staged) _ _ _ _).
  - vm_compute. reflexivity.
  - vm_compute. reflexivity.
  - discriminate.
  - repeat constructor; lia.
Defined.

Lemma xdb_show_binlog_index_witness :
  fst (xdb_show_binlog_index Cases.silent_tool_node
         "/data/mysql/log/mysql_bin.000003" (initial_state Demo.files))
  = Raise IndexError.
Proof.
  apply (xdb_show_binlog_index_without_pair Cases.silent_tool_node
           "/data/mysql/log/mysql_bin.000003" (initial_state Demo.files));
    reflexivity.
Defined.

Lemma monitor_returns_witness :
  fst (wait_binlog_apply_ready Cases.late_node 5 "3306" "37"
         (initial_state Demo.files)) = Ok tt
  /\ queries (snd (wait_binlog_apply_ready Cases.late_node 5 "3306" "37"
                     (initial_state Demo.files))) = 3%nat.
Proof.
  destruct (monitor_returns_at_first_ready_poll Cases.late_node "3306" "37"
              (initial_state Demo.files) 2 5) as (Hrun & Hq & _).
  - intros k Hk. destruct k as [|[|k]]; [| |lia];
      (split; [vm_compute; reflexivity|vm_compute; discriminate]).
  - vm_compute. reflexivity.
  - vm_compute. reflexivity.
  - lia.
  - split; [rewrite Hrun; reflexivity|exact Hq].
Defined.


Lemma rendered_rows_witness :
  map (Py.split Py.TAB) (Py.split Py.LF (render_rows StatusScenario.caught_up_rows))
  = StatusScenario.caught_up_rows.
Proof.
  apply rendered_rows_read_back.
  - discriminate.
  - repeat constructor; discriminate.
Defined.

Lemma start_rejects_storage_witness :
  exists e, start Cases.no_storage_node 3 Scenario.descriptor_path
              (initial_state Demo.files)
            = (Raise e, initial_state Demo.files)
            /\ exists key, e = KeyError key.
Proof.
  apply (start_rejects_storage_before_effects Cases.no_storage_node 3
           Scenario.descriptor_path (initial_state Demo.files)
           (Demo.descriptor PNone) (PStr "oss")).
  - reflexivity.
  - exists "root", "{}". split; reflexivity.
  - repeat constructor; eexists; vm_compute; reflexivity.
  - reflexivity.
  - reflexivity.
Defined.


Lemma mycnf_keeps_witness :
  fst (initialize_local_mycnf Cases.world (initial_state Cases.conf_with_override))
  = Ok tt
  /\ fs (snd (initialize_local_mycnf Cases.world
                (initial_state Cases.conf_with_override)))
       !! "/data/mysql/conf/my.cnf.override"
     = Some (File "root" Cases.override_text).
Proof.
  destruct (mycnf_keeps_existing_override Cases.world
              (initial_state Cases.conf_with_override)
              "root" Cases.override_text Cases.override_text)
    as (Hok & Hkept & _).
  - eexists; reflexivity.
  - reflexivity.
  - discriminate.
  - reflexivity.
  - reflexivity.
  - reflexivity.
  - split; [exact Hok|exact Hkept].
Defined.


Lemma sort_config_keeps_values_witness :
  exists items',
    Config.dict_get (Config.sort_config Cases.layer) "mysqld" = Some items'
    /\ Config.dict_get items' "port" = Some (Some "3306").
Proof.
  destruct (ConfigFacts.sort_config_keeps_values Cases.layer "mysqld" "port"
              [("port", Some "3306"); ("big_tables", None)])
    as (items' & Hget & Hport).
  - apply (bool_decide_unpack _). vm_compute. exact I.
  - apply (bool_decide_unpack _). vm_compute. exact I.
  - reflexivity.
  - exists items'. split; [exact Hget|]. rewrite Hport. reflexivity.
Defined.

Lemma start_marks_node_witness :
  exists evs,
    history (snd Scenario.healthy_run) = ([] ++ evs)%list
    /\ (fst Scenario.healthy_run = Ok tt ->
        exists before, evs = (before ++ [EvMarkInitialized])%list
                       /\ ~ In EvMarkInitialized before)
    /\ (fst Scenario.healthy_run <> Ok tt -> ~ In EvMarkInitialized evs).
Proof.
  apply (start_marks_node_on_success_only Cases.healthy_node 3
           Scenario.descriptor_path (initial_state Demo.files)).
  reflexivity.
Defined.

Lemma start_spawns_engine_witness :
  Forall setup_event (Cases.until_spawn (history (snd Scenario.healthy_run)))
  /\ Forall (fun e => is_spawn e = false)
            (Cases.after_spawn (history (snd Scenario.healthy_run))).
Proof.
  destruct (start_spawns_engine_after_force_init Cases.healthy_node 3
              Scenario.descriptor_path (initial_state Demo.files)
              (Cases.until_spawn (history (snd Scenario.healthy_run)))
              (Cases.after_spawn (history (snd Scenario.healthy_run)))
              (engine_cmd Cases.healthy_node))
    as (_ & _ & Hbefore & Hafter).
  - vm_compute. reflexivity.
  - split; [exact Hbefore|exact Hafter].
Defined.

Lemma start_descriptor_errors_witness :
  start Cases.world 3 "/nowhere.json" (initial_state Demo.files)
  = (Raise (FileNotFoundError "/nowhere.json"), initial_state Demo.files)
  /\ start Cases.short_descriptor_node 3 Scenario.descriptor_path
            (initial_state Demo.files)
     = (Raise (KeyError "binlogDirPath"), initial_state Demo.files).
Proof.
  split.
  - refine (proj1 (start_descriptor_errors Cases.world 3 "/nowhere.json"
                     (initial_state Demo.files)) _).
    vm_compute. reflexivity.
  - refine (proj2 (start_descriptor_errors Cases.short_descriptor_node 3
                     Scenario.descriptor_path (initial_state Demo.files))
                  Cases.short_descriptor "binlogDirPath" _ _).
    + exists "root", "{}". split; reflexivity.
    + vm_compute. reflexivity.
Defined.

Lemma download_binlogbackup_file_fails_witness :
  download_binlogbackup_file Cases.world "backups/none" (initial_state Demo.files)
  = (Raise (TransferError "backups/none/binlog_list"), initial_state Demo.files)
  /\ fst (download_binlogbackup_file Cases.gap_node "backups/binlog"
            (initial_state Demo.files))
     = Raise (TransferError "backups/binlog/mysql_bin.000002").
Proof.
  split.
  - refine (proj1 (download_binlogbackup_file_fails_on_missing_object
                     Cases.world "backups/none" (initial_state Demo.files)) _).
    vm_compute. reflexivity.
  - refine (proj2 (download_binlogbackup_file_fails_on_missing_object
                     Cases.gap_node "backups/binlog" (initial_state Demo.files))
                  "mysql_bin.000001
mysql_bin.000002
mysql_bin.000003
" ["mysql_bin.000001"] "mysql_bin.000002" ["mysql_bin.000003"] _ _ _ _).
    + vm_compute. reflexivity.
    + vm_compute. reflexivity.
    + repeat (constructor; [eexists; vm_compute; reflexivity|]). constructor.
    + vm_compute. reflexivity.
Defined.
